(** * checks/block-height.py: the block-height liveness check

    A shallow embedding of the script and of the library calls it makes,
    followed by the properties of its exit status and output.

    Modelling conventions.
    - A Python [str] is a Rocq [string]; a character stands for the code
      point of the same number, so the strings of the model are those over
      U+0000..U+00FF.
    - A Python [int] is a [Z]. The interpreter's limit on the length of the
      decimal numerals it converts ([sys.set_int_max_str_digits], 4300
      unless configured, 0 for none) is a parameter of the script and of
      the run.
    - A Python [dict] with [str] keys is a [gmap string _].
    - The script sees the network as an oracle from the call of
      [requests.post] to what the call does: raise, or return a response.
      What [Response.json] makes of the body is a field of the response.
      What the library does on the wire during the call (the HTTP requests
      it sends, redirects followed, the waits bounded by the timeout) is
      modelled below the oracle, from a server that answers each HTTP
      request.
    - Writes to standard output succeed; every [print] adds one line. *)

From stdpp Require Import gmap strings.
From Stdlib Require Import ZArith NArith String Ascii Lia.
From Stdlib Require Import DecimalString DecimalPos DecimalZ.
From Stdlib Require Import Floats.SpecFloat.

Set Warnings "-register-all".

(* ------------------------------------------------------------------ *)
(** ** Python values and exceptions *)

(** The values [json.loads] builds, which are also the values the script
    hands to [requests.post] as [json=...]. *)
Inductive pyobj : Type :=
| PyNone
| PyBool  (b : bool)
| PyInt   (n : Z)
| PyFloat (x : spec_float)
| PyStr   (s : string)
| PyList  (l : list pyobj)
| PyDict  (d : gmap string pyobj).

(** How [requests.post] fails: the classes of [requests.exceptions] that a
    refused or unreachable connection, a TLS failure, an expired timeout or
    a redirect loop raise. *)
Inductive request_failure : Type :=
| ConnectionError
| SSLError
| Timeout
| TooManyRedirects.

Inductive exception : Type :=
| RequestException (f : request_failure)
| JSONDecodeError
| KeyError (key : string)
| TypeError
| ValueError
| SystemExit (code : Z).

(** An expression either evaluates to a value or raises. *)
Inductive result (A : Type) : Type :=
| Return (a : A)
| Raise  (e : exception).
Arguments Return {A} a.
Arguments Raise {A} e.

Definition result_bind {A B} (r : result A) (k : A -> result B) : result B :=
  match r with
  | Return a => k a
  | Raise e => Raise e
  end.

Declare Scope result_scope.
Delimit Scope result_scope with result.
Bind Scope result_scope with result.
Notation "x <- e ;; k" := (result_bind e (fun x => k))
  (at level 100, e at next level, right associativity) : result_scope.

(* ------------------------------------------------------------------ *)
(** ** The builtin [int(x, base)] on strings

    CPython's [PyLong_FromUnicodeObject]: the string is first rewritten to
    ASCII, then read by [PyLong_FromString]. A C pointer into the buffer is
    the suffix of the string that starts there. *)

(** [Py_ISSPACE]: tab, line feed, vertical tab, form feed, carriage return
    and space. *)
Definition Py_ISSPACE (c : ascii) : bool :=
  let n := N_of_ascii c in
  ((9 <=? n)%N && (n <=? 13)%N) || (n =? 32)%N.

(** [Py_UNICODE_ISSPACE] on U+0000..U+00FF. *)
Definition Py_UNICODE_ISSPACE (c : ascii) : bool :=
  let n := N_of_ascii c in
  ((9 <=? n)%N && (n <=? 13)%N) || ((28 <=? n)%N && (n <=? 32)%N)
  || (n =? 133)%N || (n =? 160)%N.

(** [Py_UNICODE_TODECIMAL] on U+0000..U+00FF: the only decimal digits there
    are 0 to 9. *)
Definition Py_UNICODE_TODECIMAL (c : ascii) : option N :=
  let n := N_of_ascii c in
  if (48 <=? n)%N && (n <=? 57)%N then Some (n - 48)%N else None.

(** [_PyLong_DigitValue]: the value of a digit or letter, 37 for any other
    character. *)
Definition PyLong_DigitValue (c : ascii) : N :=
  let n := N_of_ascii c in
  if (48 <=? n)%N && (n <=? 57)%N then (n - 48)%N
  else if (97 <=? n)%N && (n <=? 122)%N then (n - 87)%N
  else if (65 <=? n)%N && (n <=? 90)%N then (n - 55)%N
  else 37%N.

(** [_PyUnicode_TransformDecimalAndSpaceToASCII]: characters below 127 are
    kept; above, a space becomes [" "], a decimal digit its ASCII digit,
    and at anything else the output ends with ["?"]. *)
Fixpoint TransformDecimalAndSpaceToASCII (u : string) : string :=
  match u with
  | EmptyString => EmptyString
  | String ch rest =>
      if (N_of_ascii ch <? 127)%N then
        String ch (TransformDecimalAndSpaceToASCII rest)
      else if Py_UNICODE_ISSPACE ch then
        String " " (TransformDecimalAndSpaceToASCII rest)
      else
        match Py_UNICODE_TODECIMAL ch with
        | Some d => String (ascii_of_N (48 + d)) (TransformDecimalAndSpaceToASCII rest)
        | None => String "?" EmptyString
        end
  end.

(** The loop that advances [str] while it points at a [Py_ISSPACE]
    character. *)
Fixpoint skip_whitespace (str : string) : string :=
  match str with
  | String c rest => if Py_ISSPACE c then skip_whitespace rest else str
  | EmptyString => str
  end.

(** The digit loop of [long_from_binary_base]: digits below [base] are
    accumulated, single underscores between digits are skipped, a doubled
    or trailing underscore is a syntax error. [prev] tells whether the
    previous character was an underscore. Returns the value, the number of
    digits and the pointer to the first character not consumed. *)
Fixpoint scan_digits (base : N) (prev : bool) (z : N) (digits : nat)
    (p : string) : option (N * nat * string) :=
  match p with
  | String c rest =>
      if Ascii.eqb c "_" then
        if prev then None else scan_digits base true z digits rest
      else if (PyLong_DigitValue c <? base)%N then
        scan_digits base false (z * base + PyLong_DigitValue c)%N (S digits) rest
      else if prev then None else Some (z, digits, p)
  | EmptyString => if prev then None else Some (z, digits, p)
  end.

(** [str[i]] in the buffer: the character, or the terminating NUL from the
    end of the string on. *)
Definition char_at (str : string) (i : nat) : ascii :=
  match String.get i str with
  | Some c => c
  | None => zero
  end.

(** [str += n] *)
Fixpoint advance (n : nat) (str : string) : string :=
  match n, str with
  | S n', String _ rest => advance n' rest
  | _, _ => str
  end.

(** The optional sign: the factor it stands for and the pointer after it. *)
Definition read_sign (str : string) : Z * string :=
  if Ascii.eqb (char_at str 0) "+" then (1%Z, advance 1 str)
  else if Ascii.eqb (char_at str 0) "-" then ((-1)%Z, advance 1 str)
  else (1%Z, str).

(** The optional prefix of bases 16, 8 and 2, and the one underscore allowed
    after it. *)
Definition skip_prefix (base : N) (str : string) : string :=
  if Ascii.eqb (char_at str 0) "0"
     && (((base =? 16)%N && (Ascii.eqb (char_at str 1) "x" || Ascii.eqb (char_at str 1) "X"))
         || ((base =? 8)%N && (Ascii.eqb (char_at str 1) "o" || Ascii.eqb (char_at str 1) "O"))
         || ((base =? 2)%N && (Ascii.eqb (char_at str 1) "b" || Ascii.eqb (char_at str 1) "B")))
  then
    let str := advance 2 str in
    if Ascii.eqb (char_at str 0) "_" then advance 1 str else str
  else str.

(** [PyLong_FromString(str, &end, base)] for an explicit [base] (2 to 36):
    optional whitespace, an optional sign, an optional prefix, the digits
    (the number may not start with an underscore and must have a digit),
    optional whitespace, and then the NUL. On success the value and [end];
    [None] is the C function's NULL, whatever [end] is then. *)
Definition PyLong_FromString (str : string) (base : N) : option (Z * string) :=
  let str := skip_whitespace str in
  let '(sign, str) := read_sign str in
  let str := skip_prefix base str in
  if Ascii.eqb (char_at str 0) "_" then None
  else
    match scan_digits base false 0%N 0%nat str with
    | None => None
    | Some (z, digits, str) =>
        match digits with
        | O => None
        | S _ =>
            let str := skip_whitespace str in
            if Ascii.eqb (char_at str 0) zero
            then Some ((sign * Z.of_N z)%Z, str)
            else None
        end
    end.

(** [PyLong_FromUnicodeObject(u, base)]: [end] must be the end of the
    buffer, so a NUL inside the string is refused. [None] stands for the
    [ValueError] it sets. *)
Definition PyLong_FromUnicodeObject (u : string) (base : N) : option Z :=
  match PyLong_FromString (TransformDecimalAndSpaceToASCII u) base with
  | Some (n, EmptyString) => Some n
  | _ => None
  end.

(** [int(x, base)] with an explicit base between 2 and 36. A value that
    is not a string raises [TypeError], a string that does not parse
    raises [ValueError]. The builtin also takes base 0 (the base is then read
    off the literal's prefix); the script never passes it and the model
    leaves it out. *)
Definition py_int (x : pyobj) (base : N) : result Z :=
  if (base <? 2)%N || (36 <? base)%N then Raise ValueError
  else
    match x with
    | PyStr s =>
        match PyLong_FromUnicodeObject s base with
        | Some n => Return n
        | None => Raise ValueError
        end
    | _ => Raise TypeError
    end.

(** [str(n)], which is also what [{n}] formats to inside an f-string. *)
Definition py_str (n : Z) : string := NilZero.string_of_int (Z.to_int n).

(** The conversion with the interpreter's limit, as
    [long_to_decimal_string_internal] applies it: once the numeral is
    longer than the threshold of 640 characters, a limit other than 0 that
    the digits (the numeral without its sign) exceed makes the conversion
    raise [ValueError]. *)
Definition int_to_str (max_str_digits : nat) (n : Z) : result string :=
  let text := py_str n in
  let strlen := String.length text in
  let strlen_nosign := (strlen - (if (n <? 0)%Z then 1 else 0))%nat in
  if (640 <? strlen)%nat && (0 <? max_str_digits)%nat
     && (max_str_digits <? strlen_nosign)%nat
  then Raise ValueError
  else Return text.

(** [obj[key]] with a string key: a lookup in a [dict], [KeyError] when the
    key is absent, [TypeError] on every other JSON value. *)
Definition getitem (obj : pyobj) (key : string) : result pyobj :=
  match obj with
  | PyDict d =>
      match d !! key with
      | Some v => Return v
      | None => Raise (KeyError key)
      end
  | _ => Raise TypeError
  end.

(* ------------------------------------------------------------------ *)
(** ** The network and the process *)

(** The arguments of one [requests.post(url, json=..., timeout=...)]. *)
Record Request : Type := {
  method  : string;
  url     : string;
  json    : pyobj;
  timeout : Z
}.

(** A response as the script can observe it: the HTTP status, and what
    [Response.json] makes of the body ([None] when the body is not a JSON
    document). *)
Record Response : Type := {
  status_code : Z;
  body_json   : option pyobj
}.

Inductive post_outcome : Type :=
| Failure (f : request_failure)
| Reply   (r : Response).

(** What the network does with a request. *)
Definition Network : Type := Request -> post_outcome.

(** *** On the wire

    One call of [requests.post] sends an HTTP request and follows the
    redirects it is answered with ([Session.resolve_redirects]). *)















(** What a run leaves behind: the calls of [requests.post] made, oldest
    first, and the lines written to standard output, oldest first. *)
Record World : Type := {
  requests : list Request;
  stdout   : list string
}.

Definition initial_world : World := {| requests := []; stdout := [] |}.

(** Statements run in a world and may raise. *)
Definition M (A : Type) : Type := World -> result A * World.

Definition bind {A B} (m : M A) (k : A -> M B) : M B :=
  fun w =>
    match m w with
    | (Return a, w') => k a w'
    | (Raise e, w') => (Raise e, w')
    end.

(** An expression without effects, evaluated inside a statement. *)
Definition lift {A} (r : result A) : M A := fun w => (r, w).

Declare Scope M_scope.
Delimit Scope M_scope with M.
Bind Scope M_scope with M.
Notation "x <- e ;; k" := (bind e (fun x => k))
  (at level 100, e at next level, right associativity) : M_scope.
Notation "e ;; k" := (bind e (fun _ => k))
  (at level 100, right associativity) : M_scope.

(** [requests.post(url, json=payload, timeout=t)] as the script sees it: the
    call is made, and it raises or returns as the network decides. The
    world records the call; what goes over the wire during it is
    [session_of]. *)
Definition requests_post (net : Network) (url : string) (payload : pyobj)
    (t : Z) : M Response :=
  fun w =>
    let rq := {| method := "POST"; url := url; json := payload; timeout := t |} in
    let w' := {| requests := requests w ++ [rq]; stdout := stdout w |} in
    match net rq with
    | Failure f => (Raise (RequestException f), w')
    | Reply r => (Return r, w')
    end.

(** [response.json()] *)
Definition Response_json (response : Response) : result pyobj :=
  match body_json response with
  | Some v => Return v
  | None => Raise JSONDecodeError
  end.

(** [print(line)] *)
Definition print (line : string) : M unit :=
  fun w => (Return tt, {| requests := requests w; stdout := stdout w ++ [line] |}).

(** [sys.exit(code)] raises [SystemExit]. *)
Definition sys_exit {A} (code : Z) : M A :=
  fun w => (Raise (SystemExit code), w).

(* ------------------------------------------------------------------ *)
(** ** The script *)

Definition rpc_url : string := "https://polygon-rpc.com/".

Definition rpc_payload : pyobj :=
  PyDict (<["jsonrpc" := PyStr "2.0"]>
         (<["method" := PyStr "eth_blockNumber"]>
         (<["params" := PyList []]>
         (<["id" := PyInt 1]> ∅)))).

(** The right-hand side of [block_number = int(response.json()["result"], 16)]. *)
Definition block_number_of (response : Response) : result Z :=
  (body <- Response_json response ;;
   value <- getitem body "result" ;;
   py_int value 16)%result.

(** The script, for an interpreter whose limit on int to str conversion is
    [max_str_digits]. The f-string is evaluated, which converts
    [block_number], before [print] is called. *)
Definition script (max_str_digits : nat) (net : Network) : M unit :=
  (response <- requests_post net rpc_url rpc_payload 10 ;;
   block_number <- lift (block_number_of response) ;;
   text <- lift (int_to_str max_str_digits block_number) ;;
   print ("block_number: " +:+ text) ;;
   sys_exit (if (block_number >? 0)%Z then 0 else 1)%Z)%M.

(** One run of the script, from an empty world. *)
Definition run (max_str_digits : nat) (net : Network) : result unit * World :=
  script max_str_digits net initial_world.

(** The status the interpreter ends the process with: the code of a
    [SystemExit], 1 after any other uncaught exception, 0 when the script
    runs to its end. *)
Definition exit_status (r : result unit) : Z :=
  match r with
  | Return _ => 0
  | Raise (SystemExit code) => code
  | Raise _ => 1
  end.

(** The request the script sends. *)
Definition rpc_request : Request :=
  {| method := "POST"; url := rpc_url; json := rpc_payload; timeout := 10 |}.

(** The network that answers every request with status [status] and a body
    that is the JSON object with the single key [result]. *)
Definition answering (status : Z) (value : pyobj) : Network :=
  fun _ => Reply {| status_code := status;
                    body_json := Some (PyDict {[ "result" := value ]}) |}.

(* ------------------------------------------------------------------ *)
(** ** The vocabulary of the specification *)

(** The response to the script's request is a JSON object whose [result]
    field is [value]. *)
Definition result_field (net : Network) (value : pyobj) : Prop :=
  exists r d,
    net rpc_request = Reply r /\
    body_json r = Some (PyDict d) /\
    d !! "result" = Some value.

(** Every character of [s] satisfies [P]. *)
Fixpoint all_chars (P : ascii -> bool) (s : string) : bool :=
  match s with
  | EmptyString => true
  | String c rest => P c && all_chars P rest
  end.

(** The place of a character in an alphabet, counted from 0. *)
Fixpoint place_in (alphabet : string) (c : ascii) : option Z :=
  match alphabet with
  | EmptyString => None
  | String a rest =>
      if Ascii.eqb a c then Some 0%Z else option_map Z.succ (place_in rest c)
  end.

(** The value of a hexadecimal digit, in either case: its place among the
    sixteen digits. *)
Definition hex_digit_value (c : ascii) : option Z :=
  match place_in "0123456789abcdef" c with
  | Some v => Some v
  | None => place_in "0123456789ABCDEF" c
  end.

Definition is_hex_digit (c : ascii) : bool :=
  match hex_digit_value c with
  | Some _ => true
  | None => false
  end.

(** A non-empty run of hexadecimal digits. *)
Definition hex_numeral (ds : string) : bool :=
  negb (String.eqb ds "") && all_chars is_hex_digit ds.

(** The integer a run of hexadecimal digits denotes in positional notation:
    the digit with [k] digits after it counts [16 ^ k] times its value. *)
Fixpoint hex_value (ds : string) : Z :=
  match ds with
  | EmptyString => 0
  | String c rest =>
      (match hex_digit_value c with Some v => v | None => 0 end
       * 16 ^ Z.of_nat (String.length rest) + hex_value rest)%Z
  end.

(** The characters [int] skips around a numeral: the ASCII whitespace, and
    the spaces U+0085 and U+00A0. *)
Definition is_whitespace (c : ascii) : bool :=
  existsb (N.eqb (N_of_ascii c)) [32; 9; 10; 11; 12; 13; 133; 160]%N.

(** The sign a numeral is written with, as a factor. *)
Definition sign_factor (sg : string) : Z :=
  if String.eqb sg "-" then (-1)%Z else 1%Z.

(** The JSON value has no entry [key]: it is an object without it, or it
    is not an object at all. *)
Definition lacks_key (j : pyobj) (key : string) : Prop :=
  match j with
  | PyDict d => d !! key = None
  | _ => True
  end.

(** The value is not a string, or it is a string that [int(_, 16)]
    refuses. *)
Definition not_hexadecimal (v : pyobj) : Prop :=
  match v with
  | PyStr s => PyLong_FromUnicodeObject s 16 = None
  | _ => True
  end.

(** The run ended in an exception other than [SystemExit]. *)
Definition uncaught_failure (r : result unit) : Prop :=
  match r with
  | Raise (SystemExit _) => False
  | Raise _ => True
  | Return _ => False
  end.

(** The world a run leaves when it has written [lines]. *)
Definition world_after (lines : list string) : World :=
  {| requests := [rpc_request]; stdout := lines |}.

(** The limit of an interpreter that was not configured. *)
Definition default_max_str_digits : nat := 4300.

(** The limits an interpreter can be configured with: none, or at least the
    threshold. *)
Definition valid_limit (max_str_digits : nat) : Prop :=
  max_str_digits = 0%nat \/ (640 <= max_str_digits)%nat.

(** The number of decimal digits of [n]. *)
Definition decimal_digits (n : Z) : nat := String.length (py_str (Z.abs n)).

(** The numeral of [n] has no more digits than the limit, or there is no
    limit. *)
Definition within_limit (max_str_digits : nat) (n : Z) : Prop :=
  max_str_digits = 0%nat \/ (decimal_digits n <= max_str_digits)%nat.

(** [k] times the character [c]. *)
Fixpoint repeat_char (c : ascii) (k : nat) : string :=
  match k with
  | O => EmptyString
  | S k' => String c (repeat_char c k')
  end.





(** The character [c] occurs in [s]. *)
Fixpoint occurs (c : ascii) (s : string) : bool :=
  match s with
  | EmptyString => false
  | String a rest => Ascii.eqb a c || occurs c rest
  end.

(** The characters a string that [int(_, 16)] accepts is made of:
    hexadecimal digits, the underscore, the signs, the [x] of the prefix
    and whitespace. *)
Definition int_char (c : ascii) : bool :=
  is_hex_digit c || is_whitespace c || occurs c "+-_xX".

(** A hexadecimal digit in upper case; other characters are left alone. *)
Definition upper_hex (c : ascii) : ascii :=
  let n := N_of_ascii c in
  if (97 <=? n)%N && (n <=? 102)%N then ascii_of_N (n - 32) else c.

(** [f] applied to every character. *)
Fixpoint map_chars (f : ascii -> ascii) (s : string) : string :=
  match s with
  | EmptyString => EmptyString
  | String c rest => String (f c) (map_chars f rest)
  end.

(** Groups of digits written one after the other with an underscore
    between neighbours, and the same groups with nothing between them. *)
Fixpoint join_groups (groups : list string) : string :=
  match groups with
  | [] => EmptyString
  | [g] => g
  | g :: rest => g +:+ String "_" (join_groups rest)
  end.

Fixpoint concat_groups (groups : list string) : string :=
  match groups with
  | [] => EmptyString
  | g :: rest => g +:+ concat_groups rest
  end.

(* ------------------------------------------------------------------ *)
(** ** The builtins on sample inputs *)

Example int_prefixed : py_int (PyStr "0x1a2b3c") 16 = Return 1715004%Z.
Proof. reflexivity. Qed.

Example int_upper_case : py_int (PyStr "+0X1F") 16 = Return 31%Z.
Proof. reflexivity. Qed.

Example int_underscores : py_int (PyStr "0x_1_0") 16 = Return 16%Z.
Proof. reflexivity. Qed.

Example int_prefix_alone : py_int (PyStr "0x") 16 = Raise ValueError.
Proof. reflexivity. Qed.

Example int_empty : py_int (PyStr "") 16 = Raise ValueError.
Proof. reflexivity. Qed.

Example int_not_a_digit : py_int (PyStr "0x1g") 16 = Raise ValueError.
Proof. reflexivity. Qed.

Example int_inner_space : py_int (PyStr "0x 1") 16 = Raise ValueError.
Proof. reflexivity. Qed.

Example int_doubled_underscore : py_int (PyStr "1__0") 16 = Raise ValueError.
Proof. reflexivity. Qed.

Example int_separator_not_skipped :
  py_int (PyStr (String (ascii_of_N 28) "0x10")) 16 = Raise ValueError.
Proof. reflexivity. Qed.

Example int_of_number : py_int (PyInt 26) 16 = Raise TypeError.
Proof. reflexivity. Qed.

Example getitem_of_list : getitem (PyList []) "result" = Raise TypeError.
Proof. reflexivity. Qed.

Example str_of_negative : py_str (-26) = "-26"%string.
Proof. reflexivity. Qed.

(* ------------------------------------------------------------------ *)
(** ** The conversion and its limit *)

Lemma py_str_opp n : (0 < n)%Z -> py_str (- n) = String "-" (py_str n).
Proof.
  destruct n as [|p|p]; intros H; try lia. reflexivity.
Qed.

(** The digits are the numeral without its sign. *)
Lemma strlen_nosign n :
  (String.length (py_str n) - (if (n <? 0)%Z then 1 else 0))%nat = decimal_digits n.
Proof.
  unfold decimal_digits. destruct (Z.ltb_spec n 0) as [Hneg|Hpos].
  - replace n with (- (- n))%Z at 1 by lia. rewrite py_str_opp by lia.
    cbn [String.length]. rewrite Nat.sub_succ, Nat.sub_0_r.
    now rewrite Z.abs_neq by lia.
  - rewrite Nat.sub_0_r. now rewrite Z.abs_eq by lia.
Qed.

Lemma int_to_str_within lim n :
  within_limit lim n -> int_to_str lim n = Return (py_str n).
Proof.
  intros H. unfold int_to_str. cbv zeta. rewrite strlen_nosign.
  destruct H as [-> | H].
  - cbn [Nat.ltb Nat.leb]. now rewrite andb_false_r.
  - destruct (Nat.ltb_spec lim (decimal_digits n)); [lia|].
    now rewrite andb_false_r.
Qed.

Lemma int_to_str_exceeds lim n :
  valid_limit lim -> ~ within_limit lim n -> int_to_str lim n = Raise ValueError.
Proof.
  intros Hv Hn. unfold within_limit in Hn.
  assert (Hlim : (640 <= lim)%nat) by (destruct Hv; [tauto | assumption]).
  assert (Hd : (lim < decimal_digits n)%nat) by lia.
  unfold int_to_str. cbv zeta. rewrite strlen_nosign.
  assert (Hlen : (decimal_digits n <= String.length (py_str n))%nat).
  { rewrite <- strlen_nosign. lia. }
  destruct (Nat.ltb_spec 640 (String.length (py_str n))); [|lia].
  destruct (Nat.ltb_spec 0 lim); [|lia].
  destruct (Nat.ltb_spec lim (decimal_digits n)); [reflexivity | lia].
Qed.

(** The conversion returns the numeral or raises [ValueError]. *)
Lemma int_to_str_cases lim n :
  int_to_str lim n = Return (py_str n) \/ int_to_str lim n = Raise ValueError.
Proof.
  unfold int_to_str. cbv zeta.
  destruct (_ && _ && _); [right | left]; reflexivity.
Qed.

Lemma int_to_str_zero lim : int_to_str lim 0 = Return "0"%string.
Proof. reflexivity. Qed.

(* ------------------------------------------------------------------ *)
(** ** The run, case by case *)

Lemma run_failure lim net f :
  net rpc_request = Failure f ->
  run lim net = (Raise (RequestException f), world_after []).
Proof.
  intros H. unfold run, script, bind, requests_post. cbn.
  fold rpc_request. rewrite H. reflexivity.
Qed.

Lemma run_raises lim net r e :
  net rpc_request = Reply r ->
  block_number_of r = Raise e ->
  run lim net = (Raise e, world_after []).
Proof.
  intros H He. unfold run, script, bind, requests_post, lift. cbn.
  fold rpc_request. rewrite H, He. reflexivity.
Qed.

(** The height is decoded and its numeral is too long: the f-string
    raises, before anything is printed. *)
Lemma run_unprintable lim net r n :
  net rpc_request = Reply r ->
  block_number_of r = Return n ->
  int_to_str lim n = Raise ValueError ->
  run lim net = (Raise ValueError, world_after []).
Proof.
  intros H Hn Hs. unfold run, script, bind, requests_post, lift. cbn.
  fold rpc_request. rewrite H, Hn, Hs. reflexivity.
Qed.

Lemma run_decoded lim net r n :
  net rpc_request = Reply r ->
  block_number_of r = Return n ->
  int_to_str lim n = Return (py_str n) ->
  run lim net = (Raise (SystemExit (if (n >? 0)%Z then 0 else 1)%Z),
                 world_after ["block_number: " +:+ py_str n]).
Proof.
  intros H Hn Hs. unfold run, script, bind, requests_post, lift, print, sys_exit. cbn.
  fold rpc_request. rewrite H, Hn, Hs. reflexivity.
Qed.

(** A run that ends in an uncaught exception has the same status as one
    that ends through [sys.exit(1)]. *)
Lemma uncaught_failure_status r : uncaught_failure r -> exit_status r = 1%Z.
Proof.
  destruct r as [a|e]; [intros [] |].
  destruct e; cbn; intros H; first [contradiction | reflexivity].
Qed.

(** The four cases are all there are. *)
Lemma run_cases lim net :
  (exists f, net rpc_request = Failure f /\
             run lim net = (Raise (RequestException f), world_after []))
  \/ (exists r e, net rpc_request = Reply r /\ block_number_of r = Raise e /\
                  run lim net = (Raise e, world_after []))
  \/ (exists r n, net rpc_request = Reply r /\ block_number_of r = Return n /\
                  int_to_str lim n = Raise ValueError /\
                  run lim net = (Raise ValueError, world_after []))
  \/ (exists r n, net rpc_request = Reply r /\ block_number_of r = Return n /\
                  int_to_str lim n = Return (py_str n) /\
                  run lim net = (Raise (SystemExit (if (n >? 0)%Z then 0 else 1)%Z),
                                 world_after ["block_number: " +:+ py_str n])).
Proof.
  destruct (net rpc_request) as [f|r] eqn:H.
  - left. exists f. split; [reflexivity | now apply run_failure].
  - destruct (block_number_of r) as [n|e] eqn:Hr.
    + destruct (int_to_str_cases lim n) as [Hs|Hs].
      * right; right; right. exists r, n. repeat split; try assumption.
        now apply (run_decoded lim net r n).
      * right; right; left. exists r, n. repeat split; try assumption.
        now apply (run_unprintable lim net r n).
    + right; left. exists r, e. repeat split; try assumption.
      now apply (run_raises lim net r e).
Qed.

Lemma block_number_of_field r d v :
  body_json r = Some (PyDict d) ->
  d !! "result" = Some v ->
  block_number_of r = py_int v 16.
Proof.
  intros Hb Hd. unfold block_number_of, Response_json, getitem, result_bind.
  rewrite Hb, Hd. reflexivity.
Qed.

(** [block_number_of] never raises [SystemExit]. *)
Lemma block_number_of_raise r e :
  block_number_of r = Raise e ->
  e = JSONDecodeError \/ e = KeyError "result" \/ e = TypeError \/ e = ValueError.
Proof.
  unfold block_number_of, Response_json, getitem, py_int, result_bind.
  destruct (body_json r) as [j|]; [|intros [= <-]; auto].
  destruct j; try (intros [= <-]; auto).
  destruct (d !! "result") as [v|]; [|intros [= <-]; auto].
  cbn. destruct v; try (intros [= <-]; auto).
  destruct (PyLong_FromUnicodeObject s 16); [discriminate|intros [= <-]; auto].
Qed.

(** Two runs that decode the same height end in the same way. *)
Lemma run_same_height lim net net' r r' :
  net rpc_request = Reply r ->
  net' rpc_request = Reply r' ->
  block_number_of r = block_number_of r' ->
  run lim net = run lim net'.
Proof.
  intros Hr Hr' E. destruct (block_number_of r') as [n|e] eqn:E'.
  - destruct (int_to_str_cases lim n) as [Hs|Hs].
    + now rewrite (run_decoded lim net r n Hr E Hs), (run_decoded lim net' r' n Hr' E' Hs).
    + now rewrite (run_unprintable lim net r n Hr E Hs),
                  (run_unprintable lim net' r' n Hr' E' Hs).
  - now rewrite (run_raises lim net r e Hr E), (run_raises lim net' r' e Hr' E').
Qed.

(* ------------------------------------------------------------------ *)
(** ** Reading hexadecimal numerals *)

Ltac each_char c := destruct c as [[] [] [] [] [] [] [] []].

Lemma append_String c s t : (String c s +:+ t)%string = String c (s +:+ t).
Proof. reflexivity. Qed.

Lemma append_Empty t : (""%string +:+ t)%string = t.
Proof. reflexivity. Qed.

Ltac push_append := rewrite ?append_String, ?append_Empty.

Lemma char_at_0 c s : char_at (String c s) 0 = c.
Proof. reflexivity. Qed.

Lemma char_at_S c s i : char_at (String c s) (S i) = char_at s i.
Proof. reflexivity. Qed.

Lemma hex_digit_facts c v :
  hex_digit_value c = Some v ->
  Ascii.eqb c "_" = false /\ Ascii.eqb c "+" = false /\ Ascii.eqb c "-" = false /\
  Ascii.eqb c zero = false /\ Py_ISSPACE c = false /\
  (Ascii.eqb c "x" || Ascii.eqb c "X") = false /\
  (N_of_ascii c <? 127)%N = true /\
  (PyLong_DigitValue c <? 16)%N = true /\
  Z.of_N (PyLong_DigitValue c) = v.
Proof.
  each_char c; intros H; vm_compute in H;
    first [discriminate H | injection H as <-; vm_compute; tauto].
Qed.

Lemma is_hex_digit_value c :
  is_hex_digit c = true -> exists v, hex_digit_value c = Some v.
Proof.
  unfold is_hex_digit. destruct (hex_digit_value c) as [v|]; [eauto | discriminate].
Qed.

Lemma Py_ISSPACE_facts c :
  Py_ISSPACE c = true ->
  Ascii.eqb c "_" = false /\ Ascii.eqb c zero = false /\
  (Ascii.eqb c "x" || Ascii.eqb c "X") = false /\
  (N_of_ascii c <? 127)%N = true /\
  (PyLong_DigitValue c <? 16)%N = false.
Proof.
  each_char c; intros H; vm_compute in H; first [discriminate H | vm_compute; tauto].
Qed.

(** A whitespace character reaches the parser as a [Py_ISSPACE] one. *)
Lemma whitespace_transformed c :
  is_whitespace c = true ->
  exists c', Py_ISSPACE c' = true /\
    forall rest, TransformDecimalAndSpaceToASCII (String c rest)
                 = String c' (TransformDecimalAndSpaceToASCII rest).
Proof.
  each_char c; intros H; vm_compute in H; try discriminate H;
    eexists; (split; [|intros rest; cbn; reflexivity]); reflexivity.
Qed.

Lemma transform_whitespace ws rest :
  all_chars is_whitespace ws = true ->
  exists sp, all_chars Py_ISSPACE sp = true /\
    TransformDecimalAndSpaceToASCII (ws +:+ rest)
    = sp +:+ TransformDecimalAndSpaceToASCII rest.
Proof.
  induction ws as [|c ws IH]; intros H.
  - exists ""%string. split; reflexivity.
  - cbn [all_chars] in H. apply andb_prop in H as [Hc Hws].
    destruct (IH Hws) as (sp & Hsp & Heq).
    destruct (whitespace_transformed c Hc) as (c' & Hc' & Ht).
    exists (String c' sp). split.
    + cbn [all_chars]. now rewrite Hc', Hsp.
    + push_append. rewrite Ht, Heq. reflexivity.
Qed.

Lemma transform_hex ds rest :
  all_chars is_hex_digit ds = true ->
  TransformDecimalAndSpaceToASCII (ds +:+ rest)
  = ds +:+ TransformDecimalAndSpaceToASCII rest.
Proof.
  induction ds as [|c ds IH]; intros H; [reflexivity|].
  cbn [all_chars] in H. apply andb_prop in H as [Hc Hds].
  destruct (is_hex_digit_value c Hc) as [v Hv].
  destruct (hex_digit_facts c v Hv) as (_ & _ & _ & _ & _ & _ & Hlt & _).
  push_append. cbn [TransformDecimalAndSpaceToASCII]. rewrite Hlt, (IH Hds). reflexivity.
Qed.

Lemma skip_whitespace_app sp rest :
  all_chars Py_ISSPACE sp = true ->
  skip_whitespace (sp +:+ rest) = skip_whitespace rest.
Proof.
  induction sp as [|c sp IH]; intros H; [reflexivity|].
  cbn [all_chars] in H. apply andb_prop in H as [Hc Hsp].
  push_append. cbn [skip_whitespace]. rewrite Hc. auto.
Qed.

Lemma skip_whitespace_all sp :
  all_chars Py_ISSPACE sp = true -> skip_whitespace sp = ""%string.
Proof.
  induction sp as [|c sp IH]; intros H; [reflexivity|].
  cbn [all_chars] in H. apply andb_prop in H as [Hc Hsp].
  cbn [skip_whitespace]. rewrite Hc. auto.
Qed.

Lemma skip_whitespace_stop c rest :
  Py_ISSPACE c = false -> skip_whitespace (String c rest) = String c rest.
Proof. intros H. cbn [skip_whitespace]. now rewrite H. Qed.

(** What follows a numeral: the end, or whitespace. *)
Lemma after_numeral sp :
  all_chars Py_ISSPACE sp = true ->
  Ascii.eqb (char_at sp 0) "_" = false /\
  (Ascii.eqb (char_at sp 0) "x" || Ascii.eqb (char_at sp 0) "X") = false /\
  (PyLong_DigitValue (char_at sp 0) <? 16)%N = false.
Proof.
  destruct sp as [|c sp]; intros H; [repeat split; reflexivity|].
  cbn [all_chars] in H. apply andb_prop in H as [Hc _].
  cbn [char_at String.get]. destruct (Py_ISSPACE_facts c Hc) as (? & ? & ? & ? & ?).
  auto.
Qed.

Lemma scan_digits_hex ds : forall z n rest,
  all_chars is_hex_digit ds = true ->
  Ascii.eqb (char_at rest 0) "_" = false ->
  (PyLong_DigitValue (char_at rest 0) <? 16)%N = false ->
  exists z',
    scan_digits 16 false z n (ds +:+ rest) = Some (z', (n + String.length ds)%nat, rest) /\
    Z.of_N z' = (Z.of_N z * 16 ^ Z.of_nat (String.length ds) + hex_value ds)%Z.
Proof.
  induction ds as [|c ds IH]; intros z n rest H Hu Hd.
  - exists z. push_append. cbn [String.length hex_value]. split; [|cbn; lia].
    rewrite Nat.add_0_r.
    destruct rest as [|c r]; [reflexivity|].
    cbn [char_at String.get] in Hu, Hd. cbn [scan_digits]. now rewrite Hu, Hd.
  - cbn [all_chars] in H. apply andb_prop in H as [Hc Hds].
    destruct (is_hex_digit_value c Hc) as [v Hv].
    destruct (hex_digit_facts c v Hv) as (Hus & _ & _ & _ & _ & _ & _ & Hlt & Hval).
    destruct (IH (z * 16 + PyLong_DigitValue c)%N (S n) rest Hds Hu Hd) as (z' & Hscan & Hz').
    exists z'. split.
    + push_append. cbn [scan_digits String.length]. rewrite Hus, Hlt, Hscan.
      do 3 f_equal. lia.
    + rewrite Hz'. cbn [String.length hex_value]. rewrite Hv.
      rewrite N2Z.inj_add, N2Z.inj_mul, Hval, Nat2Z.inj_succ, Z.pow_succ_r by lia.
      change (Z.of_N 16) with 16%Z. ring.
Qed.

(** [PyLong_FromString] on whitespace, an optional sign, an optional
    [0x] or [0X], hexadecimal digits, whitespace. *)
Lemma PyLong_FromString_hex sp1 sg px ds sp2 :
  all_chars Py_ISSPACE sp1 = true ->
  all_chars Py_ISSPACE sp2 = true ->
  sg ∈ [""; "+"; "-"]%string ->
  px ∈ [""; "0x"; "0X"]%string ->
  hex_numeral ds = true ->
  PyLong_FromString (sp1 +:+ sg +:+ px +:+ ds +:+ sp2) 16
  = Some ((sign_factor sg * hex_value ds)%Z, ""%string).
Proof.
  intros H1 H2 Hsg Hpx Hds.
  unfold hex_numeral in Hds. apply andb_prop in Hds as [Hne Hhex].
  destruct ds as [|h ds]; [discriminate Hne|]. clear Hne.
  pose proof Hhex as Hall.
  cbn [all_chars] in Hhex. apply andb_prop in Hhex as [Hh Hrest].
  destruct (is_hex_digit_value h Hh) as [v Hv].
  destruct (hex_digit_facts h v Hv) as (Hus & Hplus & Hminus & Hnul & Hsp & Hx & _ & _ & _).
  destruct (after_numeral sp2 H2) as (Hu2 & Hx2 & Hd2).
  destruct (scan_digits_hex (String h ds) 0%N 0%nat sp2 Hall Hu2 Hd2) as (z' & Hscan & Hz').
  assert (Hnext : (Ascii.eqb (char_at (ds +:+ sp2) 0) "x"
                   || Ascii.eqb (char_at (ds +:+ sp2) 0) "X") = false).
  { destruct ds as [|h' ds']; [exact Hx2|].
    cbn [all_chars] in Hrest. apply andb_prop in Hrest as [Hh' _].
    destruct (is_hex_digit_value h' Hh') as [v' Hv'].
    destruct (hex_digit_facts h' v' Hv') as (_ & _ & _ & _ & _ & Hx' & _).
    exact Hx'. }
  assert (Hbody : forall str,
    str = (String h ds +:+ sp2)%string ->
    (if Ascii.eqb (char_at str 0) "_" then None
     else match scan_digits 16 false 0%N 0%nat str with
          | None => None
          | Some (z, digits, str) =>
              match digits with
              | O => None
              | S _ =>
                  let str := skip_whitespace str in
                  if Ascii.eqb (char_at str 0) zero
                  then Some ((sign_factor sg * Z.of_N z)%Z, str) else None
              end
          end)
    = Some ((sign_factor sg * hex_value (String h ds))%Z, ""%string)).
  { intros str ->. rewrite append_String at 1. cbn [char_at String.get]. rewrite Hus.
    rewrite Hscan. cbn [Nat.add String.length].
    cbv zeta. rewrite (skip_whitespace_all sp2 H2). cbn [char_at String.get].
    rewrite Ascii.eqb_refl, Hz'. reflexivity. }
  assert (Hnoprefix : skip_prefix 16 (String h ds +:+ sp2) = (String h ds +:+ sp2)%string).
  { unfold skip_prefix. push_append. rewrite char_at_S, Hnext.
    cbn. now rewrite andb_false_r. }
  set (R := (px +:+ String h ds +:+ sp2)%string).
  assert (HR : exists c0 R', R = String c0 R' /\ Py_ISSPACE c0 = false /\
                 Ascii.eqb c0 "+" = false /\ Ascii.eqb c0 "-" = false).
  { subst R. set_unfold in Hpx. destruct Hpx as [->|[->|[->|[]]]]; push_append;
      eexists _, _; (split; [reflexivity|]); auto. }
  assert (HC : skip_prefix 16 R = (String h ds +:+ sp2)%string).
  { subst R. set_unfold in Hpx. destruct Hpx as [->|[->|[->|[]]]]; push_append.
    - rewrite <- append_String. exact Hnoprefix.
    - unfold skip_prefix. rewrite char_at_0, char_at_S, char_at_0.
      cbn [advance]. rewrite char_at_0, Hus. reflexivity.
    - unfold skip_prefix. rewrite char_at_0, char_at_S, char_at_0.
      cbn [advance]. rewrite char_at_0, Hus. reflexivity. }
  destruct HR as (c0 & R' & HR & Hsp0 & Hplus0 & Hminus0).
  assert (HAB : read_sign (skip_whitespace (sg +:+ R)) = (sign_factor sg, R)).
  { set_unfold in Hsg. destruct Hsg as [->|[->|[->|[]]]]; push_append.
    - rewrite HR, (skip_whitespace_stop c0) by exact Hsp0.
      unfold read_sign. rewrite char_at_0, Hplus0, Hminus0. reflexivity.
    - reflexivity.
    - reflexivity. }
  unfold PyLong_FromString. rewrite (skip_whitespace_app _ _ H1).
  cbv zeta. fold R. rewrite HAB, HC. apply Hbody. reflexivity.
Qed.

Lemma append_Empty_r s : (s +:+ "")%string = s.
Proof. induction s as [|c s IH]; push_append; [reflexivity | now rewrite IH]. Qed.

(** [int(s, 16)] on whitespace, an optional sign, an optional [0x] or [0X],
    hexadecimal digits, whitespace: the signed positional value. *)
Lemma py_int_hex ws1 sg px ds ws2 :
  all_chars is_whitespace ws1 = true ->
  all_chars is_whitespace ws2 = true ->
  sg ∈ [""; "+"; "-"]%string ->
  px ∈ [""; "0x"; "0X"]%string ->
  hex_numeral ds = true ->
  py_int (PyStr (ws1 +:+ sg +:+ px +:+ ds +:+ ws2)) 16
  = Return (sign_factor sg * hex_value ds)%Z.
Proof.
  intros H1 H2 Hsg Hpx Hds.
  destruct (transform_whitespace ws1 (sg +:+ px +:+ ds +:+ ws2) H1) as (sp1 & Hsp1 & E1).
  destruct (transform_whitespace ws2 "" H2) as (sp2 & Hsp2 & E2).
  rewrite append_Empty_r in E2. cbn [TransformDecimalAndSpaceToASCII] in E2.
  rewrite append_Empty_r in E2.
  assert (E : TransformDecimalAndSpaceToASCII (sg +:+ px +:+ ds +:+ ws2)
              = (sg +:+ px +:+ ds +:+ sp2)%string).
  { pose proof Hds as Hhex. unfold hex_numeral in Hhex.
    apply andb_prop in Hhex as [_ Hhex].
    pose proof (transform_hex ds ws2 Hhex) as Et. rewrite E2 in Et.
    set_unfold in Hsg. set_unfold in Hpx.
    destruct Hsg as [->|[->|[->|[]]]]; destruct Hpx as [->|[->|[->|[]]]];
      push_append; cbn [TransformDecimalAndSpaceToASCII];
      repeat (match goal with
              | |- context [(N_of_ascii ?c <? 127)%N] =>
                  change (N_of_ascii c <? 127)%N with true
              end; cbv iota);
      rewrite Et; reflexivity. }
  unfold py_int, PyLong_FromUnicodeObject.
  change ((16 <? 2)%N || (36 <? 16)%N) with false. cbv iota.
  rewrite E1, E, (PyLong_FromString_hex sp1 sg px ds sp2 Hsp1 Hsp2 Hsg Hpx Hds).
  reflexivity.
Qed.

(** The numeral [str] prints is read back as the number printed. *)
Lemma py_str_reads_back n :
  option_map Z.of_int (NilZero.int_of_string (py_str n)) = Some n.
Proof.
  unfold py_str. rewrite NilZero.isi.
  - cbn [option_map]. now rewrite DecimalZ.of_to.
  - destruct n; cbn; try discriminate.
    intros [= H]. now apply DecimalPos.Unsigned.to_uint_nonnil in H.
  - destruct n; cbn; try discriminate.
    intros [= H]. now apply DecimalPos.Unsigned.to_uint_nonnil in H.
Qed.

Lemma answering_result_field status value :
  result_field (answering status value) value.
Proof.
  eexists _, _. split; [reflexivity|]. split; [reflexivity|].
  apply lookup_singleton_eq.
Qed.

Lemma run_result_field lim net v n :
  result_field net v ->
  py_int v 16 = Return n ->
  within_limit lim n ->
  run lim net = (Raise (SystemExit (if (n >? 0)%Z then 0 else 1)%Z),
                 world_after ["block_number: " +:+ py_str n]).
Proof.
  intros (r & d & Hr & Hb & Hd) Hn Hw. apply (run_decoded lim net r n); [exact Hr| |].
  - now rewrite (block_number_of_field r d v Hb Hd).
  - now apply int_to_str_within.
Qed.

Lemma run_result_field_exceeds lim net v n :
  result_field net v ->
  py_int v 16 = Return n ->
  valid_limit lim ->
  ~ within_limit lim n ->
  run lim net = (Raise ValueError, world_after []).
Proof.
  intros (r & d & Hr & Hb & Hd) Hn Hv Hw. apply (run_unprintable lim net r n Hr).
  - now rewrite (block_number_of_field r d v Hb Hd).
  - now apply int_to_str_exceeds.
Qed.

(** Two runs whose [result] fields decode to the same integer end in the
    same way. *)
Lemma run_same_integer lim net net' v v' n :
  result_field net v ->
  result_field net' v' ->
  py_int v 16 = Return n ->
  py_int v' 16 = Return n ->
  run lim net = run lim net'.
Proof.
  intros (r & d & Hr & Hb & Hd) (r' & d' & Hr' & Hb' & Hd') Hn Hn'.
  apply (run_same_height lim net net' r r' Hr Hr').
  now rewrite (block_number_of_field r d v Hb Hd), (block_number_of_field r' d' v' Hb' Hd'),
    Hn, Hn'.
Qed.

Lemma default_limit_valid : valid_limit default_max_str_digits.
Proof. right. apply Nat.leb_le. vm_compute. reflexivity. Qed.

Lemma within_limit_dec lim n : within_limit lim n \/ ~ within_limit lim n.
Proof.
  unfold within_limit. destruct (Nat.eq_dec lim 0) as [->|Hne]; [left; left; reflexivity|].
  destruct (le_lt_dec (decimal_digits n) lim); [left; right; assumption|].
  right. intros [H|H]; lia.
Qed.

Lemma within_limit_zero lim : within_limit lim 0.
Proof.
  unfold within_limit. destruct lim; [left; reflexivity | right].
  change (decimal_digits 0) with 1%nat. lia.
Qed.

(* ------------------------------------------------------------------ *)
(** ** On the wire: redirects and waits *)









(* ------------------------------------------------------------------ *)
(** ** Properties of the check *)

(** C1, as amended. When the [result] field of the response parses as a
    base-16 integer, the process exits with code 0 if that integer is
    greater than 0 and its decimal numeral is within the interpreter's
    limit on conversions, and with code 1 if the integer is not greater
    than 0. A positive integer whose numeral exceeds the limit makes the
    f-string raise: nothing is printed and the status is 1. *)
Theorem exit_code_by_positivity lim net v n :
  result_field net v ->
  py_int v 16 = Return n ->
  ((0 < n)%Z -> within_limit lim n -> exit_status (fst (run lim net)) = 0%Z) /\
  ((n <= 0)%Z -> exit_status (fst (run lim net)) = 1%Z) /\
  ((0 < n)%Z -> valid_limit lim -> ~ within_limit lim n ->
   exit_status (fst (run lim net)) = 1%Z /\ stdout (snd (run lim net)) = []).
Proof.
  intros Hf Hn. split; [|split].
  - intros Hpos Hw. rewrite (run_result_field lim net v n Hf Hn Hw). cbn [fst exit_status].
    destruct (Z.gtb_spec n 0); [reflexivity | lia].
  - intros Hle. destruct Hf as (r & d & Hr & Hb & Hd).
    assert (Hbn : block_number_of r = Return n)
      by now rewrite (block_number_of_field r d v Hb Hd).
    destruct (int_to_str_cases lim n) as [Hs|Hs].
    + rewrite (run_decoded lim net r n Hr Hbn Hs). cbn [fst exit_status].
      destruct (Z.gtb_spec n 0); [lia | reflexivity].
    + now rewrite (run_unprintable lim net r n Hr Hbn Hs).
  - intros _ Hv Hw. now rewrite (run_result_field_exceeds lim net v n Hf Hn Hv Hw).
Qed.

Lemma exit_code_by_positivity_witness :
  exit_status
    (fst (run default_max_str_digits (answering 200 (PyStr "0x1a2b3c")))) = 0%Z.
Proof.
  apply (proj1 (exit_code_by_positivity default_max_str_digits
                  (answering 200 (PyStr "0x1a2b3c")) (PyStr "0x1a2b3c") 1715004
                  (answering_result_field 200 (PyStr "0x1a2b3c")) eq_refl)).
  - lia.
  - right. apply Nat.leb_le. vm_compute. reflexivity.
Defined.

(** C1 as stated fails: [0x1] followed by 3575 zeros parses to a positive
    integer of 4305 decimal digits; with the default limit of 4300 the
    f-string raises, nothing is printed and the status is 1. *)
Lemma huge_height_exits_1 :
  py_int (PyStr ("0x1" +:+ repeat_char "0" 3575)) 16 = Return (16 ^ 3575)%Z /\
  (0 < 16 ^ 3575)%Z /\
  run default_max_str_digits (answering 200 (PyStr ("0x1" +:+ repeat_char "0" 3575)))
  = (Raise ValueError, world_after []) /\
  exit_status
    (fst (run default_max_str_digits
            (answering 200 (PyStr ("0x1" +:+ repeat_char "0" 3575))))) = 1%Z.
Proof.
  split; [vm_compute; reflexivity|]. split; [vm_compute; reflexivity|].
  split; vm_compute; reflexivity.
Qed.

(** C2, as amended. When the [result] field is [0x] followed by hexadecimal
    digits that denote a positive integer, the decoded value is that
    integer; when its decimal numeral is within the interpreter's limit on
    conversions, the line printed is that numeral, which reads back as
    the integer, and the process exits 0. *)
Theorem positive_hex_decoded_and_exit_0 lim net ds :
  hex_numeral ds = true ->
  (0 < hex_value ds)%Z ->
  result_field net (PyStr ("0x" +:+ ds)) ->
  py_int (PyStr ("0x" +:+ ds)) 16 = Return (hex_value ds) /\
  option_map Z.of_int (NilZero.int_of_string (py_str (hex_value ds)))
  = Some (hex_value ds) /\
  (within_limit lim (hex_value ds) ->
   run lim net = (Raise (SystemExit 0),
                  world_after ["block_number: " +:+ py_str (hex_value ds)]) /\
   exit_status (fst (run lim net)) = 0%Z).
Proof.
  intros Hds Hpos Hf.
  assert (Hint : py_int (PyStr ("0x" +:+ ds)) 16 = Return (hex_value ds)).
  { assert (Hsg : ""%string ∈ [""; "+"; "-"]%string) by repeat constructor.
    assert (Hpx : "0x"%string ∈ [""; "0x"; "0X"]%string) by repeat constructor.
    pose proof (py_int_hex "" "" "0x" ds "" eq_refl eq_refl Hsg Hpx Hds) as H.
    rewrite append_Empty_r in H. change (sign_factor "") with 1%Z in H.
    rewrite Z.mul_1_l in H. exact H. }
  split; [exact Hint|]. split; [apply py_str_reads_back|].
  intros Hw.
  assert (Hrun : run lim net = (Raise (SystemExit 0),
                   world_after ["block_number: " +:+ py_str (hex_value ds)])).
  { rewrite (run_result_field lim net _ _ Hf Hint Hw).
    destruct (Z.gtb_spec (hex_value ds) 0); [reflexivity | lia]. }
  split; [exact Hrun | now rewrite Hrun].
Qed.

Lemma positive_hex_decoded_and_exit_0_witness :
  run default_max_str_digits (answering 200 (PyStr "0x1a2b3c"))
  = (Raise (SystemExit 0), world_after ["block_number: 1715004"%string]).
Proof.
  apply (proj2 (proj2 (positive_hex_decoded_and_exit_0 default_max_str_digits
                         (answering 200 (PyStr "0x1a2b3c")) "1a2b3c" eq_refl eq_refl
                         (answering_result_field 200 (PyStr "0x1a2b3c"))))).
  right. apply Nat.leb_le. vm_compute. reflexivity.
Defined.

(** C2 as stated fails: [0x2] followed by 3575 zeros is a hexadecimal
    numeral of a positive integer and is decoded to it, but with the
    default limit of 4300 its decimal numeral of 4305 digits is not
    printed and the process does not exit 0. *)
Lemma long_numeral_not_printed :
  hex_numeral ("2" +:+ repeat_char "0" 3575) = true /\
  py_int (PyStr ("0x" +:+ "2" +:+ repeat_char "0" 3575)) 16
  = Return (2 * 16 ^ 3575)%Z /\
  (0 < 2 * 16 ^ 3575)%Z /\
  stdout (snd (run default_max_str_digits
                 (answering 200 (PyStr ("0x" +:+ "2" +:+ repeat_char "0" 3575))))) = [] /\
  exit_status (fst (run default_max_str_digits
                      (answering 200 (PyStr ("0x" +:+ "2" +:+ repeat_char "0" 3575)))))
  = 1%Z.
Proof.
  split; [vm_compute; reflexivity|]. split; [vm_compute; reflexivity|].
  split; [vm_compute; reflexivity|]. split; vm_compute; reflexivity.
Qed.

(** C3, as amended. When the process ends through [sys.exit(1)], the block
    height was decoded and is not positive: it is zero or negative. The
    line reporting it was printed. *)
Theorem sys_exit_1_height_not_positive lim net w :
  run lim net = (Raise (SystemExit 1), w) ->
  exists r n,
    net rpc_request = Reply r /\
    block_number_of r = Return n /\
    (n <= 0)%Z /\
    w = world_after ["block_number: " +:+ py_str n].
Proof.
  intros Hrun.
  destruct (run_cases lim net)
    as [(f & _ & E) | [(r & e & _ & He & E) | [(r & n & _ & _ & _ & E)
                                              | (r & n & Hr & Hn & _ & E)]]];
    rewrite E in Hrun.
  - discriminate Hrun.
  - injection Hrun as -> _.
    destruct (block_number_of_raise r _ He) as [H|[H|[H|H]]]; discriminate H.
  - discriminate Hrun.
  - exists r, n. repeat split; try assumption.
    + destruct (Z.gtb_spec n 0); [discriminate Hrun | lia].
    + now injection Hrun as _ <-.
Qed.

Lemma sys_exit_1_height_not_positive_witness :
  exists r n,
    answering 200 (PyStr "0x0") rpc_request = Reply r /\
    block_number_of r = Return n /\
    (n <= 0)%Z /\
    world_after ["block_number: 0"%string] = world_after ["block_number: " +:+ py_str n].
Proof.
  apply (sys_exit_1_height_not_positive default_max_str_digits
           (answering 200 (PyStr "0x0")) (world_after ["block_number: 0"%string])).
  reflexivity.
Defined.

(** C3 as stated fails: the answer [-0x1] is decoded as -1, which is not
    zero, and the process exits with code 1. *)
Lemma exit_1_with_negative_height :
  exit_status (fst (run default_max_str_digits (answering 200 (PyStr "-0x1")))) = 1%Z /\
  answering 200 (PyStr "-0x1") rpc_request
  = Reply {| status_code := 200;
             body_json := Some (PyDict {[ "result" := PyStr "-0x1" ]}) |} /\
  block_number_of {| status_code := 200;
                     body_json := Some (PyDict {[ "result" := PyStr "-0x1" ]}) |}
  = Return (-1)%Z /\
  (-1)%Z <> 0%Z.
Proof.
  repeat split; try reflexivity. discriminate.
Qed.

(** C4, as amended. When the connection fails, the process exits with a
    non-zero code and prints nothing. The status of a response is never
    looked at: a response ends the run as any response with the same body
    and another status does. Such a run exits non-zero without printing
    exactly when the body does not decode or the numeral of the decoded
    height exceeds the interpreter's limit; otherwise the line is printed
    and the exit code is 0 for a positive height and 1 for another. *)
Theorem failure_fatal_status_ignored lim net :
  (forall f, net rpc_request = Failure f ->
     exit_status (fst (run lim net)) <> 0%Z /\ stdout (snd (run lim net)) = []) /\
  (forall r status, net rpc_request = Reply r ->
     run lim net = run lim (fun _ => Reply {| status_code := status;
                                              body_json := body_json r |})) /\
  (forall r, net rpc_request = Reply r -> valid_limit lim ->
     (exit_status (fst (run lim net)) <> 0%Z /\ stdout (snd (run lim net)) = []
      <-> (exists e, block_number_of r = Raise e)
          \/ (exists n, block_number_of r = Return n /\ ~ within_limit lim n))) /\
  (forall r n, net rpc_request = Reply r -> block_number_of r = Return n ->
     within_limit lim n ->
     run lim net = (Raise (SystemExit (if (n >? 0)%Z then 0 else 1)%Z),
                    world_after ["block_number: " +:+ py_str n])).
Proof.
  split; [|split; [|split]].
  - intros f Hf. rewrite (run_failure lim net f Hf). split; [discriminate | reflexivity].
  - intros r status Hr.
    apply (run_same_height lim net _ r
             {| status_code := status; body_json := body_json r |} Hr eq_refl).
    reflexivity.
  - intros r Hr Hv. split.
    + intros [Hst Hout].
      destruct (block_number_of r) as [n|e] eqn:E; [|left; eauto].
      right. exists n. split; [reflexivity|]. intros Hw.
      rewrite (run_decoded lim net r n Hr E (int_to_str_within lim n Hw)) in Hout.
      discriminate Hout.
    + intros [[e He] | (n & Hn & Hw)].
      * rewrite (run_raises lim net r e Hr He). split; [|reflexivity].
        destruct (block_number_of_raise r e He) as [->|[->|[->| ->]]]; discriminate.
      * rewrite (run_unprintable lim net r n Hr Hn (int_to_str_exceeds lim n Hv Hw)).
        split; [discriminate | reflexivity].
  - intros r n Hr Hn Hw.
    exact (run_decoded lim net r n Hr Hn (int_to_str_within lim n Hw)).
Qed.

Lemma failure_fatal_status_ignored_witness :
  (exit_status (fst (run default_max_str_digits (fun _ => Failure Timeout))) <> 0%Z /\
   stdout (snd (run default_max_str_digits (fun _ => Failure Timeout))) = []) /\
  run default_max_str_digits (answering 500 (PyStr "0x1a"))
  = (Raise (SystemExit 0), world_after ["block_number: 26"%string]).
Proof.
  split.
  - apply (proj1 (failure_fatal_status_ignored default_max_str_digits
                    (fun _ => Failure Timeout)) Timeout).
    reflexivity.
  - apply (proj2 (proj2 (proj2 (failure_fatal_status_ignored default_max_str_digits
                                   (answering 500 (PyStr "0x1a")))))
             {| status_code := 500;
                body_json := Some (PyDict {[ "result" := PyStr "0x1a" ]}) |} 26%Z).
    + reflexivity.
    + reflexivity.
    + right. apply Nat.leb_le. vm_compute. reflexivity.
Defined.

(** C4 as stated fails: a response with status 500 whose body carries a
    positive height is reported and the process exits 0. *)
Lemma status_500_exits_0 :
  run default_max_str_digits (answering 500 (PyStr "0x1"))
  = (Raise (SystemExit 0), world_after ["block_number: 1"%string]) /\
  exit_status (fst (run default_max_str_digits (answering 500 (PyStr "0x1")))) = 0%Z.
Proof.
  split; reflexivity.
Qed.

(** C5. When the [result] field is ["0x0"], the process prints
    [block_number: 0] and exits with code 1. *)
Theorem zero_height_printed_exit_1 lim net :
  result_field net (PyStr "0x0") ->
  run lim net = (Raise (SystemExit 1), world_after ["block_number: 0"%string]) /\
  exit_status (fst (run lim net)) = 1%Z.
Proof.
  intros Hf.
  assert (H : py_int (PyStr "0x0") 16 = Return 0%Z) by reflexivity.
  rewrite (run_result_field lim net _ _ Hf H (within_limit_zero lim)). split; reflexivity.
Qed.

Lemma zero_height_printed_exit_1_witness :
  run default_max_str_digits (answering 200 (PyStr "0x0"))
  = (Raise (SystemExit 1), world_after ["block_number: 0"%string]) /\
  exit_status (fst (run default_max_str_digits (answering 200 (PyStr "0x0")))) = 1%Z.
Proof.
  apply (zero_height_printed_exit_1 default_max_str_digits (answering 200 (PyStr "0x0"))).
  apply answering_result_field.
Defined.

(** C6. When the JSON body of the response has no [result] entry, or has
    one whose value does not parse as hexadecimal, the process ends in an
    uncaught exception, with a non-zero exit code and nothing printed. *)
Theorem missing_or_bad_result_fatal lim net r j :
  net rpc_request = Reply r ->
  body_json r = Some j ->
  lacks_key j "result"
  \/ (exists v, getitem j "result" = Return v /\ not_hexadecimal v) ->
  uncaught_failure (fst (run lim net)) /\
  exit_status (fst (run lim net)) <> 0%Z /\
  stdout (snd (run lim net)) = [].
Proof.
  intros Hr Hj Hbad.
  assert (He : exists e, block_number_of r = Raise e).
  { unfold block_number_of, Response_json. rewrite Hj. cbn [result_bind].
    destruct Hbad as [Hlack | (v & Hv & Hnot)].
    - destruct j; cbn [getitem result_bind]; eauto.
      cbn [lacks_key] in Hlack. rewrite Hlack. eauto.
    - rewrite Hv. cbn [result_bind]. unfold py_int. cbn [N.ltb N.compare orb].
      change ((16 <? 2)%N || (36 <? 16)%N) with false. cbv iota.
      destruct v; eauto. cbn [not_hexadecimal] in Hnot. rewrite Hnot. eauto. }
  destruct He as [e He]. rewrite (run_raises lim net r e Hr He).
  cbn [fst snd stdout world_after].
  destruct (block_number_of_raise r e He) as [->|[->|[->| ->]]];
    repeat split; solve [exact I | discriminate].
Qed.

Lemma missing_or_bad_result_fatal_witness :
  uncaught_failure
    (fst (run default_max_str_digits
            (fun _ => Reply {| status_code := 200; body_json := Some (PyDict ∅) |}))) /\
  exit_status
    (fst (run default_max_str_digits
            (fun _ => Reply {| status_code := 200; body_json := Some (PyDict ∅) |})))
    <> 0%Z /\
  stdout
    (snd (run default_max_str_digits
            (fun _ => Reply {| status_code := 200; body_json := Some (PyDict ∅) |})))
    = [].
Proof.
  apply (missing_or_bad_result_fatal default_max_str_digits
           (fun _ => Reply {| status_code := 200; body_json := Some (PyDict ∅) |})
           {| status_code := 200; body_json := Some (PyDict ∅) |}
           (PyDict ∅)).
  - reflexivity.
  - reflexivity.
  - left. reflexivity.
Defined.

(** C7. A run that reaches the positivity decision, that is, one that ends
    through [sys.exit], has written exactly one line: [block_number: ]
    followed by the decimal numeral of the decoded integer, a numeral that
    reads back as that integer; the exit code is the one the decision
    gives. A run that ends in an uncaught exception, because the network
    call, the decoding or the conversion to the numeral fails, has written
    nothing. *)
Theorem one_line_exactly_when_decoded lim net :
  (forall code, fst (run lim net) = Raise (SystemExit code) ->
     exists r n,
       net rpc_request = Reply r /\
       block_number_of r = Return n /\
       stdout (snd (run lim net)) = ["block_number: " +:+ py_str n] /\
       option_map Z.of_int (NilZero.int_of_string (py_str n)) = Some n /\
       code = (if (n >? 0)%Z then 0 else 1)%Z) /\
  (uncaught_failure (fst (run lim net)) -> stdout (snd (run lim net)) = []) /\
  (forall f, net rpc_request = Failure f -> stdout (snd (run lim net)) = []) /\
  (forall r e, net rpc_request = Reply r -> block_number_of r = Raise e ->
     stdout (snd (run lim net)) = []).
Proof.
  split; [|split; [|split]].
  - intros code Hcode.
    destruct (run_cases lim net)
      as [(f & _ & E) | [(r & e & _ & He & E) | [(r & n & _ & _ & _ & E)
                                                | (r & n & Hr & Hn & _ & E)]]];
      rewrite E in Hcode |- *; cbn [fst snd stdout world_after] in *.
    + discriminate Hcode.
    + injection Hcode as ->.
      destruct (block_number_of_raise r _ He) as [H|[H|[H|H]]]; discriminate H.
    + discriminate Hcode.
    + exists r, n. repeat split; try assumption; try reflexivity.
      * apply py_str_reads_back.
      * now injection Hcode as <-.
  - destruct (run_cases lim net)
      as [(f & _ & E) | [(r & e & _ & _ & E) | [(r & n & _ & _ & _ & E)
                                                | (r & n & _ & _ & _ & E)]]];
      rewrite E; cbn [fst snd stdout world_after]; try reflexivity.
    intros [].
  - intros f Hf. now rewrite (run_failure lim net f Hf).
  - intros r e Hr He. now rewrite (run_raises lim net r e Hr He).
Qed.

Lemma one_line_exactly_when_decoded_witness :
  stdout (snd (run default_max_str_digits (answering 200 (PyStr "0x1a2b3c"))))
  = ["block_number: 1715004"%string].
Proof.
  destruct (proj1 (one_line_exactly_when_decoded default_max_str_digits
                     (answering 200 (PyStr "0x1a2b3c"))) 0%Z eq_refl)
    as (r & n & Hr & Hn & Hout & _ & _).
  injection Hr as <-. injection Hn as <-. exact Hout.
Defined.




(** C9. When the [result] field is a run of hexadecimal digits, without the
    [0x] prefix or with it, and with or without whitespace around it,
    parsing succeeds with the value of the digits, and the run is the run
    on the same digits written with the prefix and no whitespace. *)
Theorem prefix_optional_whitespace_skipped lim net net' ws1 px ds ws2 :
  all_chars is_whitespace ws1 = true ->
  all_chars is_whitespace ws2 = true ->
  px ∈ [""; "0x"]%string ->
  hex_numeral ds = true ->
  result_field net (PyStr (ws1 +:+ px +:+ ds +:+ ws2)) ->
  result_field net' (PyStr ("0x" +:+ ds)) ->
  py_int (PyStr (ws1 +:+ px +:+ ds +:+ ws2)) 16 = Return (hex_value ds) /\
  run lim net = run lim net'.
Proof.
  intros H1 H2 Hpx Hds Hf Hf'.
  assert (Hsg : ""%string ∈ [""; "+"; "-"]%string) by repeat constructor.
  assert (Hpx' : px ∈ [""; "0x"; "0X"]%string).
  { set_unfold in Hpx. destruct Hpx as [->|[->|[]]]; repeat constructor. }
  assert (H0x : "0x"%string ∈ [""; "0x"; "0X"]%string) by repeat constructor.
  pose proof (py_int_hex ws1 "" px ds ws2 H1 H2 Hsg Hpx' Hds) as Hint.
  pose proof (py_int_hex "" "" "0x" ds "" eq_refl eq_refl Hsg H0x Hds) as Hint'.
  rewrite append_Empty_r in Hint'.
  change (sign_factor "") with 1%Z in Hint, Hint'. rewrite Z.mul_1_l in Hint, Hint'.
  split; [exact Hint|].
  exact (run_same_integer lim net net' _ _ _ Hf Hf' Hint Hint').
Qed.

Lemma prefix_optional_whitespace_skipped_witness :
  py_int (PyStr " 1a2b3c ") 16 = Return 1715004%Z /\
  run default_max_str_digits (answering 200 (PyStr " 1a2b3c "))
  = run default_max_str_digits (answering 200 (PyStr "0x1a2b3c")).
Proof.
  apply (prefix_optional_whitespace_skipped default_max_str_digits
           (answering 200 (PyStr " 1a2b3c ")) (answering 200 (PyStr "0x1a2b3c"))
           " " "" "1a2b3c" " ").
  - reflexivity.
  - reflexivity.
  - repeat constructor.
  - reflexivity.
  - apply (answering_result_field 200 (PyStr " 1a2b3c ")).
  - apply (answering_result_field 200 (PyStr "0x1a2b3c")).
Defined.

(** C10, as amended. When the [result] field is a minus sign followed by a
    hexadecimal numeral of positive value, parsing succeeds with the
    negative integer, whose numeral starts with the minus sign. When the
    digits of that numeral are within the interpreter's limit on
    conversions, the process prints [block_number: ] and the numeral, and
    ends through [sys.exit(1)], not in an uncaught exception. *)
Theorem negative_hex_printed_exit_1 lim net px ds :
  px ∈ [""; "0x"; "0X"]%string ->
  hex_numeral ds = true ->
  (0 < hex_value ds)%Z ->
  result_field net (PyStr ("-" +:+ px +:+ ds)) ->
  py_int (PyStr ("-" +:+ px +:+ ds)) 16 = Return (- hex_value ds)%Z /\
  py_str (- hex_value ds) = String "-" (py_str (hex_value ds)) /\
  (within_limit lim (- hex_value ds) ->
   run lim net = (Raise (SystemExit 1),
                  world_after ["block_number: " +:+ py_str (- hex_value ds)]) /\
   ~ uncaught_failure (fst (run lim net)) /\
   exit_status (fst (run lim net)) = 1%Z).
Proof.
  intros Hpx Hds Hpos Hf.
  assert (Hsg : "-"%string ∈ [""; "+"; "-"]%string) by repeat constructor.
  pose proof (py_int_hex "" "-" px ds "" eq_refl eq_refl Hsg Hpx Hds) as Hint.
  rewrite append_Empty_r in Hint. change (sign_factor "-") with (-1)%Z in Hint.
  replace (-1 * hex_value ds)%Z with (- hex_value ds)%Z in Hint by lia.
  split; [exact Hint|]. split; [now apply py_str_opp|].
  intros Hw.
  assert (Hrun : run lim net = (Raise (SystemExit 1),
                   world_after ["block_number: " +:+ py_str (- hex_value ds)])).
  { rewrite (run_result_field lim net _ _ Hf Hint Hw).
    destruct (Z.gtb_spec (- hex_value ds) 0); [lia | reflexivity]. }
  split; [exact Hrun|]. rewrite Hrun. split; [intros [] | reflexivity].
Qed.

Lemma negative_hex_printed_exit_1_witness :
  run default_max_str_digits (answering 200 (PyStr "-0x1"))
  = (Raise (SystemExit 1), world_after ["block_number: -1"%string]) /\
  ~ uncaught_failure (fst (run default_max_str_digits (answering 200 (PyStr "-0x1")))) /\
  exit_status (fst (run default_max_str_digits (answering 200 (PyStr "-0x1")))) = 1%Z.
Proof.
  apply (proj2 (proj2 (negative_hex_printed_exit_1 default_max_str_digits
                         (answering 200 (PyStr "-0x1")) "0x" "1"
                         ltac:(repeat constructor) eq_refl eq_refl
                         (answering_result_field 200 (PyStr "-0x1"))))).
  right. apply Nat.leb_le. vm_compute. reflexivity.
Defined.

(** C10 as stated fails: [-0x1] followed by 3575 zeros parses to a negative
    integer of 4305 digits; with the default limit of 4300 the f-string
    raises, so the run ends in an uncaught [ValueError] and prints
    nothing. *)
Lemma huge_negative_height_uncaught :
  py_int (PyStr ("-0x1" +:+ repeat_char "0" 3575)) 16 = Return (- 16 ^ 3575)%Z /\
  (- 16 ^ 3575 < 0)%Z /\
  run default_max_str_digits (answering 200 (PyStr ("-0x1" +:+ repeat_char "0" 3575)))
  = (Raise ValueError, world_after []) /\
  uncaught_failure
    (fst (run default_max_str_digits
            (answering 200 (PyStr ("-0x1" +:+ repeat_char "0" 3575))))).
Proof.
  split; [vm_compute; reflexivity|]. split; [vm_compute; reflexivity|].
  split; [vm_compute; reflexivity | vm_compute; exact I].
Qed.

(* ------------------------------------------------------------------ *)
(** ** What a successful parse tells about the string *)

Lemma all_chars_app P s t :
  all_chars P (s +:+ t) = all_chars P s && all_chars P t.
Proof.
  induction s as [|c s IH]; push_append; [reflexivity|].
  cbn [all_chars]. now rewrite IH, andb_assoc.
Qed.

Lemma occurs_app c s t : occurs c (s +:+ t) = occurs c s || occurs c t.
Proof.
  induction s as [|a s IH]; push_append; [reflexivity|].
  cbn [occurs]. now rewrite IH, orb_assoc.
Qed.

(** The parser's own character classes are among the [int_char]s. *)
Lemma parser_chars c :
  (Py_ISSPACE c = true -> int_char c = true) /\
  ((PyLong_DigitValue c <? 16)%N = true -> int_char c = true) /\
  ((PyLong_DigitValue c <? 16)%N = true -> is_hex_digit c = true).
Proof.
  each_char c; vm_compute; repeat split; intros H; first [exact H | reflexivity].
Qed.

(** One character through [TransformDecimalAndSpaceToASCII]: the output
    stops at a question mark, or goes on after a character that is an
    [int_char], or a minus sign, only if the one read is. *)
Lemma transform_head c rest :
  TransformDecimalAndSpaceToASCII (String c rest) = "?"%string
  \/ exists c',
       TransformDecimalAndSpaceToASCII (String c rest)
       = String c' (TransformDecimalAndSpaceToASCII rest) /\
       (int_char c' = true -> int_char c = true) /\
       (Ascii.eqb c' "-" = true -> Ascii.eqb c "-" = true).
Proof.
  each_char c;
    first [ left; reflexivity
          | right; eexists; split; [reflexivity|];
            vm_compute; split; intros H; first [exact H | reflexivity] ].
Qed.

Lemma transform_int_chars u :
  all_chars int_char (TransformDecimalAndSpaceToASCII u) = true ->
  all_chars int_char u = true.
Proof.
  induction u as [|c u IH]; [reflexivity|].
  destruct (transform_head c u) as [E | (c' & E & Hc & _)]; rewrite E.
  - discriminate.
  - cbn [all_chars]. intros H. apply andb_prop in H as [H1 H2].
    now rewrite (Hc H1), (IH H2).
Qed.

Lemma transform_minus u :
  occurs "-" (TransformDecimalAndSpaceToASCII u) = true ->
  occurs "-" u = true.
Proof.
  induction u as [|c u IH]; [discriminate|].
  destruct (transform_head c u) as [E | (c' & E & _ & Hm)]; rewrite E.
  - discriminate.
  - cbn [occurs]. intros H. apply orb_prop in H as [H|H].
    + now rewrite (Hm H).
    + rewrite (IH H). apply orb_true_r.
Qed.

Lemma skip_whitespace_int_chars s :
  all_chars int_char (skip_whitespace s) = true -> all_chars int_char s = true.
Proof.
  induction s as [|c s IH]; [reflexivity|].
  cbn [skip_whitespace]. destruct (Py_ISSPACE c) eqn:Hc; [|auto].
  intros H. cbn [all_chars]. rewrite (IH H), andb_true_r.
  exact (proj1 (parser_chars c) Hc).
Qed.

Lemma skip_whitespace_occurs c s :
  occurs c (skip_whitespace s) = true -> occurs c s = true.
Proof.
  induction s as [|a s IH]; [discriminate|].
  cbn [skip_whitespace]. destruct (Py_ISSPACE a); [|auto].
  intros H. cbn [occurs]. rewrite (IH H). apply orb_true_r.
Qed.

Lemma read_sign_int_chars s :
  all_chars int_char (snd (read_sign s)) = true -> all_chars int_char s = true.
Proof.
  unfold read_sign. destruct s as [|c s]; [reflexivity|].
  rewrite char_at_0. cbn [advance].
  destruct (Ascii.eqb_spec c "+") as [->|_]; [cbn [snd all_chars]; auto|].
  destruct (Ascii.eqb_spec c "-") as [->|_]; [cbn [snd all_chars]; auto|].
  auto.
Qed.

(** Without a minus sign in front, the sign read is plus. *)
Lemma read_sign_no_minus s :
  occurs "-" s = false -> fst (read_sign s) = 1%Z.
Proof.
  unfold read_sign. destruct s as [|c s]; [reflexivity|].
  rewrite char_at_0. cbn [occurs]. intros H. apply orb_false_elim in H as [H _].
  rewrite H. now destruct (Ascii.eqb c "+").
Qed.

Lemma skip_prefix_int_chars s :
  all_chars int_char (skip_prefix 16 s) = true -> all_chars int_char s = true.
Proof.
  unfold skip_prefix.
  change (16 =? 16)%N with true. change (16 =? 8)%N with false.
  change (16 =? 2)%N with false. cbn [andb orb]. rewrite !orb_false_r.
  destruct s as [|c0 [|c1 s]]; try rewrite char_at_0; try rewrite char_at_S;
    try rewrite char_at_0.
  - reflexivity.
  - cbn [char_at String.get]. cbn [Ascii.eqb Bool.eqb orb]. rewrite andb_false_r. auto.
  - destruct (Ascii.eqb_spec c0 "0") as [->|_]; cbn [andb]; [|auto].
    destruct (Ascii.eqb c1 "x" || Ascii.eqb c1 "X") eqn:Hx; [|auto].
    assert (Hc1 : int_char c1 = true).
    { apply orb_prop in Hx as [Hx|Hx]; apply Ascii.eqb_eq in Hx; now subst. }
    cbn [advance]. intros H.
    assert (Hs : all_chars int_char s = true).
    { destruct s as [|c2 s]; [reflexivity|]. rewrite char_at_0 in H.
      destruct (Ascii.eqb_spec c2 "_") as [->|_]; [|exact H].
      cbn [advance] in H. cbn [all_chars]. now rewrite H. }
    cbn [all_chars]. now rewrite Hc1, Hs.
Qed.

Lemma scan_digits_int_chars p : forall prev z k z' k' rest,
  scan_digits 16 prev z k p = Some (z', k', rest) ->
  all_chars int_char rest = true ->
  all_chars int_char p = true.
Proof.
  induction p as [|c p IH]; intros prev z k z' k' rest H Hrest.
  - cbn [scan_digits] in H. destruct prev; [discriminate|]. now injection H as _ _ <-.
  - cbn [scan_digits] in H.
    destruct (Ascii.eqb_spec c "_") as [->|_].
    + destruct prev; [discriminate|]. cbn [all_chars].
      now rewrite (IH _ _ _ _ _ _ H Hrest).
    + destruct (PyLong_DigitValue c <? 16)%N eqn:Hd.
      * cbn [all_chars]. rewrite (IH _ _ _ _ _ _ H Hrest), andb_true_r.
        exact (proj1 (proj2 (parser_chars c)) Hd).
      * destruct prev; [discriminate|]. now injection H as _ _ <-.
Qed.

(** The stages of a successful [PyLong_FromString] at base 16. *)
Lemma PyLong_FromString_inv t n e :
  PyLong_FromString t 16 = Some (n, e) ->
  exists z k rest,
    scan_digits 16 false 0%N 0%nat
      (skip_prefix 16 (snd (read_sign (skip_whitespace t)))) = Some (z, k, rest) /\
    e = skip_whitespace rest /\
    n = (fst (read_sign (skip_whitespace t)) * Z.of_N z)%Z.
Proof.
  unfold PyLong_FromString. cbv zeta.
  destruct (read_sign (skip_whitespace t)) as [sign s2]. cbn [fst snd].
  destruct (Ascii.eqb (char_at (skip_prefix 16 s2) 0) "_"); [discriminate|].
  destruct (scan_digits 16 false 0%N 0%nat (skip_prefix 16 s2)) as [[[z k] rest]|];
    [|discriminate].
  destruct k as [|k]; [discriminate|].
  destruct (Ascii.eqb (char_at (skip_whitespace rest) 0) zero); [|discriminate].
  intros [= <- <-]. now exists z, (S k), rest.
Qed.

Lemma py_int_inv s n :
  py_int (PyStr s) 16 = Return n ->
  exists t, PyLong_FromString (TransformDecimalAndSpaceToASCII s) 16 = Some (n, t)
            /\ t = ""%string.
Proof.
  unfold py_int, PyLong_FromUnicodeObject.
  change ((16 <? 2)%N || (36 <? 16)%N) with false. cbv iota.
  destruct (PyLong_FromString (TransformDecimalAndSpaceToASCII s) 16) as [[m t]|];
    [|discriminate].
  destruct t; [|discriminate]. intros [= <-]. now exists ""%string.
Qed.

(** A string [int(_, 16)] accepts consists of [int_char]s. *)
Lemma py_int_int_chars s n :
  py_int (PyStr s) 16 = Return n -> all_chars int_char s = true.
Proof.
  intros H. destruct (py_int_inv s n H) as (t & Hp & ->).
  destruct (PyLong_FromString_inv _ _ _ Hp) as (z & k & rest & Hscan & He & _).
  apply transform_int_chars, skip_whitespace_int_chars, read_sign_int_chars,
    skip_prefix_int_chars.
  apply (scan_digits_int_chars _ _ _ _ _ _ _ Hscan).
  apply skip_whitespace_int_chars. now rewrite <- He.
Qed.

(** A string without a minus sign is never read as a negative number. *)
Lemma py_int_no_minus s n :
  py_int (PyStr s) 16 = Return n -> occurs "-" s = false -> (0 <= n)%Z.
Proof.
  intros H Hm. destruct (py_int_inv s n H) as (t & Hp & ->).
  destruct (PyLong_FromString_inv _ _ _ Hp) as (z & k & rest & _ & _ & ->).
  rewrite read_sign_no_minus; [lia|].
  destruct (occurs "-" (skip_whitespace (TransformDecimalAndSpaceToASCII s))) eqn:E;
    [|reflexivity].
  apply skip_whitespace_occurs, transform_minus in E. congruence.
Qed.

(* ------------------------------------------------------------------ *)
(** ** Underscores between digits, and the case of digits *)

Lemma length_append s t :
  String.length (s +:+ t) = (String.length s + String.length t)%nat.
Proof.
  induction s as [|c s IH]; push_append; [reflexivity|].
  cbn [String.length]. now rewrite IH.
Qed.

Lemma hex_value_app a b :
  hex_value (a +:+ b)
  = (hex_value a * 16 ^ Z.of_nat (String.length b) + hex_value b)%Z.
Proof.
  induction a as [|c a IH]; push_append; [cbn [hex_value]; lia|].
  cbn [hex_value]. rewrite IH, length_append, Nat2Z.inj_add, Z.pow_add_r by lia.
  ring.
Qed.

(** The digit loop runs through hexadecimal digits and goes on after them. *)
Lemma scan_digits_run ds : forall z n tail,
  all_chars is_hex_digit ds = true ->
  exists z',
    scan_digits 16 false z n (ds +:+ tail)
    = scan_digits 16 false z' (n + String.length ds)%nat tail /\
    Z.of_N z' = (Z.of_N z * 16 ^ Z.of_nat (String.length ds) + hex_value ds)%Z.
Proof.
  induction ds as [|c ds IH]; intros z n tail H.
  - exists z. push_append. cbn [String.length hex_value].
    rewrite Nat.add_0_r. split; [reflexivity | cbn; lia].
  - cbn [all_chars] in H. apply andb_prop in H as [Hc Hds].
    destruct (is_hex_digit_value c Hc) as [v Hv].
    destruct (hex_digit_facts c v Hv) as (Hus & _ & _ & _ & _ & _ & _ & Hlt & Hval).
    destruct (IH (z * 16 + PyLong_DigitValue c)%N (S n) tail Hds) as (z' & Hscan & Hz').
    exists z'. split.
    + push_append. cbn [scan_digits String.length]. rewrite Hus, Hlt, Hscan.
      f_equal. lia.
    + rewrite Hz'. cbn [String.length hex_value]. rewrite Hv.
      rewrite N2Z.inj_add, N2Z.inj_mul, Hval, Nat2Z.inj_succ, Z.pow_succ_r by lia.
      change (Z.of_N 16) with 16%Z. ring.
Qed.

(** A group of digits is read the same way after an underscore. *)
Lemma scan_digits_group ds prev z n tail :
  hex_numeral ds = true ->
  exists z',
    scan_digits 16 prev z n (ds +:+ tail)
    = scan_digits 16 false z' (n + String.length ds)%nat tail /\
    Z.of_N z' = (Z.of_N z * 16 ^ Z.of_nat (String.length ds) + hex_value ds)%Z.
Proof.
  intros H. unfold hex_numeral in H. apply andb_prop in H as [Hne Hhex].
  destruct ds as [|c ds]; [discriminate Hne|].
  cbn [all_chars] in Hhex. apply andb_prop in Hhex as [Hc Hds].
  destruct (is_hex_digit_value c Hc) as [v Hv].
  destruct (hex_digit_facts c v Hv) as (Hus & _ & _ & _ & _ & _ & _ & Hlt & Hval).
  destruct (scan_digits_run ds (z * 16 + PyLong_DigitValue c)%N (S n) tail Hds)
    as (z' & Hscan & Hz').
  exists z'. split.
  - push_append. cbn [scan_digits String.length]. rewrite Hus, Hlt, Hscan.
    f_equal. lia.
  - rewrite Hz'. cbn [String.length hex_value]. rewrite Hv.
    rewrite N2Z.inj_add, N2Z.inj_mul, Hval, Nat2Z.inj_succ, Z.pow_succ_r by lia.
    change (Z.of_N 16) with 16%Z. ring.
Qed.

Lemma scan_digits_groups groups : forall prev z n,
  groups <> [] ->
  forallb hex_numeral groups = true ->
  exists z',
    scan_digits 16 prev z n (join_groups groups)
    = Some (z', (n + String.length (concat_groups groups))%nat, ""%string) /\
    Z.of_N z' = (Z.of_N z * 16 ^ Z.of_nat (String.length (concat_groups groups))
                 + hex_value (concat_groups groups))%Z.
Proof.
  induction groups as [|g groups IH]; intros prev z n Hne H; [congruence|].
  cbn [forallb] in H. apply andb_prop in H as [Hg Hrest].
  destruct groups as [|g' groups].
  - cbn [join_groups concat_groups]. rewrite append_Empty_r.
    destruct (scan_digits_group g prev z n "" Hg) as (z' & Hscan & Hz').
    rewrite append_Empty_r in Hscan. exists z'. split; [|exact Hz'].
    rewrite Hscan. reflexivity.
  - change (join_groups (g :: g' :: groups))
      with (g +:+ String "_" (join_groups (g' :: groups)))%string.
    change (concat_groups (g :: g' :: groups))
      with (g +:+ concat_groups (g' :: groups))%string.
    destruct (scan_digits_group g prev z n (String "_" (join_groups (g' :: groups))) Hg)
      as (z1 & Hscan & Hz1).
    destruct (IH true z1 (n + String.length g)%nat ltac:(discriminate) Hrest)
      as (z2 & Hscan2 & Hz2).
    exists z2. split.
    + rewrite Hscan. cbn [scan_digits]. rewrite Ascii.eqb_refl, Hscan2.
      rewrite length_append. do 3 f_equal. lia.
    + rewrite Hz2, Hz1, hex_value_app, length_append, Nat2Z.inj_add, Z.pow_add_r by lia.
      ring.
Qed.

Lemma transform_join groups :
  forallb hex_numeral groups = true ->
  TransformDecimalAndSpaceToASCII (join_groups groups) = join_groups groups.
Proof.
  induction groups as [|g groups IH]; intros H; [reflexivity|].
  cbn [forallb] in H. apply andb_prop in H as [Hg Hrest].
  unfold hex_numeral in Hg. apply andb_prop in Hg as [_ Hhex].
  destruct groups as [|g' groups].
  - cbn [join_groups]. rewrite <- (append_Empty_r g) at 1.
    rewrite (transform_hex g "" Hhex). now rewrite append_Empty_r.
  - change (join_groups (g :: g' :: groups))
      with (g +:+ String "_" (join_groups (g' :: groups)))%string.
    rewrite (transform_hex g _ Hhex). cbn [TransformDecimalAndSpaceToASCII].
    change (N_of_ascii "_" <? 127)%N with true. cbv iota. now rewrite (IH Hrest).
Qed.

Lemma join_groups_head groups :
  groups <> [] ->
  forallb hex_numeral groups = true ->
  exists h tl k,
    join_groups groups = String h tl /\
    Ascii.eqb h "_" = false /\
    String.length (concat_groups groups) = S k.
Proof.
  destruct groups as [|g groups]; intros Hne H; [congruence|].
  cbn [forallb] in H. apply andb_prop in H as [Hg _].
  unfold hex_numeral in Hg. apply andb_prop in Hg as [Hn Hhex].
  destruct g as [|h g]; [discriminate Hn|].
  cbn [all_chars] in Hhex. apply andb_prop in Hhex as [Hh _].
  destruct (is_hex_digit_value h Hh) as [v Hv].
  destruct (hex_digit_facts h v Hv) as (Hus & _).
  cbn [concat_groups]. push_append. cbn [String.length].
  destruct groups as [|g' groups]; cbn [join_groups]; push_append;
    eexists _, _, _; (split; [reflexivity|]); (split; [exact Hus | reflexivity]).
Qed.

(** [int(_, 16)] on [0x] and groups of digits separated by underscores. *)
Lemma py_int_groups groups :
  groups <> [] ->
  forallb hex_numeral groups = true ->
  py_int (PyStr ("0x" +:+ join_groups groups)) 16
  = Return (hex_value (concat_groups groups)).
Proof.
  intros Hne H.
  destruct (join_groups_head groups Hne H) as (h & tl & k & Ej & Hus & Hlen).
  destruct (scan_digits_groups groups false 0%N 0%nat Hne H) as (z' & Hscan & Hz').
  unfold py_int, PyLong_FromUnicodeObject.
  change ((16 <? 2)%N || (36 <? 16)%N) with false. cbv iota.
  push_append. cbn [TransformDecimalAndSpaceToASCII].
  change (N_of_ascii "0" <? 127)%N with true.
  change (N_of_ascii "x" <? 127)%N with true. cbv iota.
  rewrite (transform_join groups H).
  unfold PyLong_FromString. cbv zeta.
  rewrite skip_whitespace_stop by reflexivity.
  unfold read_sign. rewrite char_at_0.
  change (Ascii.eqb "0" "+") with false. change (Ascii.eqb "0" "-") with false.
  cbv iota. unfold skip_prefix. rewrite char_at_0, char_at_S, char_at_0.
  change (Ascii.eqb "0" "0") with true. change (Ascii.eqb "x" "x") with true.
  change (16 =? 16)%N with true. cbn [andb orb advance].
  assert (Hc0 : Ascii.eqb (char_at (join_groups groups) 0) "_" = false)
    by now rewrite Ej, char_at_0.
  rewrite !Hc0. rewrite Hscan, Hlen. cbn [Nat.add skip_whitespace char_at String.get].
  rewrite Ascii.eqb_refl, Hz'. f_equal. change (Z.of_N 0) with 0%Z. lia.
Qed.

Lemma upper_hex_digit c :
  is_hex_digit c = true -> hex_digit_value (upper_hex c) = hex_digit_value c.
Proof.
  each_char c; intros H; vm_compute in H; first [discriminate H | reflexivity].
Qed.

Lemma upper_hex_numeral ds :
  all_chars is_hex_digit ds = true ->
  all_chars is_hex_digit (map_chars upper_hex ds) = true /\
  String.length (map_chars upper_hex ds) = String.length ds /\
  hex_value (map_chars upper_hex ds) = hex_value ds.
Proof.
  induction ds as [|c ds IH]; intros H; [repeat split; reflexivity|].
  cbn [all_chars] in H. apply andb_prop in H as [Hc Hds].
  destruct (IH Hds) as (Ha & Hl & Hv).
  pose proof (upper_hex_digit c Hc) as Hu.
  cbn [map_chars all_chars String.length hex_value]. rewrite Ha, Hl, Hv, Hu.
  repeat split. unfold is_hex_digit in Hc |- *. now rewrite Hu, Hc.
Qed.

Lemma concat_groups_numeral groups :
  groups <> [] ->
  forallb hex_numeral groups = true ->
  hex_numeral (concat_groups groups) = true.
Proof.
  intros Hne H.
  assert (Hall : all_chars is_hex_digit (concat_groups groups) = true).
  { clear Hne. induction groups as [|g groups IH]; [reflexivity|].
    cbn [forallb] in H. apply andb_prop in H as [Hg Hrest].
    unfold hex_numeral in Hg. apply andb_prop in Hg as [_ Hg].
    cbn [concat_groups]. now rewrite all_chars_app, Hg, (IH Hrest). }
  destruct (join_groups_head groups Hne H) as (_ & _ & k & _ & _ & Hlen).
  unfold hex_numeral. rewrite Hall, andb_true_r.
  destruct (concat_groups groups); [discriminate Hlen | reflexivity].
Qed.

Lemma py_int_canonical ds :
  hex_numeral ds = true ->
  py_int (PyStr ("0x" +:+ ds)) 16 = Return (hex_value ds).
Proof.
  intros Hds.
  assert (Hsg : ""%string ∈ [""; "+"; "-"]%string) by repeat constructor.
  assert (Hpx : "0x"%string ∈ [""; "0x"; "0X"]%string) by repeat constructor.
  pose proof (py_int_hex "" "" "0x" ds "" eq_refl eq_refl Hsg Hpx Hds) as H.
  rewrite append_Empty_r in H. change (sign_factor "") with 1%Z in H.
  rewrite Z.mul_1_l in H. exact H.
Qed.

Lemma py_int_str_raises s e :
  py_int (PyStr s) 16 = Raise e -> e = ValueError.
Proof.
  unfold py_int. change ((16 <? 2)%N || (36 <? 16)%N) with false. cbv iota.
  destruct (PyLong_FromUnicodeObject s 16); [discriminate | now intros [= <-]].
Qed.

Lemma run_field_raises lim net v e :
  result_field net v ->
  py_int v 16 = Raise e ->
  run lim net = (Raise e, world_after []).
Proof.
  intros (r & d & Hr & Hb & Hd) He. apply (run_raises lim net r e Hr).
  now rewrite (block_number_of_field r d v Hb Hd).
Qed.

Lemma py_str_inj n m : py_str n = py_str m -> n = m.
Proof.
  intros H. pose proof (py_str_reads_back n) as Hn.
  rewrite H, py_str_reads_back in Hn. now injection Hn as <-.
Qed.

Lemma append_inj_r p a b : (p +:+ a)%string = (p +:+ b)%string -> a = b.
Proof.
  induction p as [|c p IH]; push_append; [auto|]. intros [= H]. auto.
Qed.

(* ------------------------------------------------------------------ *)
(** ** Further properties of the check *)

(** X1. For an interpreter with a valid limit on conversions, the process
    exits with status 0 exactly when the response was decoded to a positive
    block height whose numeral is within the limit; in every other case
    the status is 1, and no run ends with any other status. *)
Theorem exit_status_zero_iff_positive lim net :
  valid_limit lim ->
  (exit_status (fst (run lim net)) = 0%Z <->
   exists r n,
     net rpc_request = Reply r /\ block_number_of r = Return n /\ (0 < n)%Z /\
     within_limit lim n) /\
  (exit_status (fst (run lim net)) = 0%Z \/ exit_status (fst (run lim net)) = 1%Z).
Proof.
  intros Hv.
  destruct (run_cases lim net)
    as [(f & Hf & E) | [(r & e & Hr & He & E) | [(r & n & Hr & Hn & Hs & E)
                                                | (r & n & Hr & Hn & Hs & E)]]];
    rewrite E; cbn [fst].
  - split; [|right; reflexivity]. split; [discriminate|].
    intros (r & n & Hr & _). congruence.
  - assert (Hst : exit_status (Raise e) = 1%Z).
    { destruct (block_number_of_raise r e He) as [->|[->|[->| ->]]]; reflexivity. }
    rewrite Hst. split; [|right; reflexivity]. split; [discriminate|].
    intros (r' & n & Hr' & Hn & _). congruence.
  - split; [|right; reflexivity]. split; [discriminate|].
    intros (r' & n' & Hr' & Hn' & _ & Hw).
    assert (r' = r) by congruence. subst r'.
    assert (n' = n) by congruence. subst n'.
    rewrite (int_to_str_within lim n Hw) in Hs. discriminate Hs.
  - cbn [exit_status]. destruct (Z.gtb_spec n 0).
    + split; [|left; reflexivity]. split; [|reflexivity].
      intros _. exists r, n. repeat split; try assumption.
      destruct (within_limit_dec lim n) as [Hw|Hw]; [exact Hw|].
      rewrite (int_to_str_exceeds lim n Hv Hw) in Hs. discriminate Hs.
    + split; [|right; reflexivity]. split; [discriminate|].
      intros (r' & n' & Hr' & Hn' & Hpos & _).
      assert (r' = r) by congruence. subst r'.
      assert (n' = n) by congruence. lia.
Qed.

Lemma exit_status_zero_iff_positive_witness :
  exit_status
    (fst (run default_max_str_digits (answering 200 (PyStr "0x1a2b3c")))) = 0%Z.
Proof.
  apply (proj1 (exit_status_zero_iff_positive default_max_str_digits
                  (answering 200 (PyStr "0x1a2b3c")) default_limit_valid)).
  eexists _, 1715004%Z. split; [reflexivity | split; [reflexivity | split; [lia|]]].
  right. apply Nat.leb_le. vm_compute. reflexivity.
Defined.

(** X2. Of a response whose body is a JSON object, only the [result] entry
    is used: two responses whose objects agree on that entry, whatever
    their other entries and their statuses, end the run in the same way. *)
Theorem only_result_entry_matters lim net net' r r' d d' :
  net rpc_request = Reply r ->
  net' rpc_request = Reply r' ->
  body_json r = Some (PyDict d) ->
  body_json r' = Some (PyDict d') ->
  d !! "result" = d' !! "result" ->
  run lim net = run lim net'.
Proof.
  intros Hr Hr' Hb Hb' Hd.
  apply (run_same_height lim net net' r r' Hr Hr').
  unfold block_number_of, Response_json, getitem, result_bind.
  now rewrite Hb, Hb', Hd.
Qed.

Lemma only_result_entry_matters_witness :
  run default_max_str_digits
    (fun _ => Reply {| status_code := 500;
                       body_json := Some (PyDict (<["error" := PyNone]>
                                                  {[ "result" := PyStr "0x1" ]})) |})
  = run default_max_str_digits (answering 200 (PyStr "0x1")).
Proof.
  apply (only_result_entry_matters default_max_str_digits _ _
           {| status_code := 500;
              body_json := Some (PyDict (<["error" := PyNone]>
                                         {[ "result" := PyStr "0x1" ]})) |}
           {| status_code := 200;
              body_json := Some (PyDict {[ "result" := PyStr "0x1" ]}) |}
           (<["error" := PyNone]> {[ "result" := PyStr "0x1" ]})
           {[ "result" := PyStr "0x1" ]});
    reflexivity.
Defined.

(** X3. For [result] strings over the code points U+0000 to U+00FF, which
    are the strings of this model: when the string contains a character
    that is not a hexadecimal digit, an underscore, a sign, [x], [X] or
    whitespace, the run ends in an uncaught [ValueError] with nothing
    printed. *)
Theorem foreign_character_fatal lim net s :
  result_field net (PyStr s) ->
  all_chars int_char s = false ->
  run lim net = (Raise ValueError, world_after []).
Proof.
  intros Hf Hbad. destruct (py_int (PyStr s) 16) as [n|e] eqn:E.
  - rewrite (py_int_int_chars s n E) in Hbad. discriminate.
  - pose proof (py_int_str_raises s e E) as ->.
    exact (run_field_raises lim net _ _ Hf E).
Qed.

Lemma foreign_character_fatal_witness :
  run default_max_str_digits (answering 200 (PyStr "0x1a2b3c wei"))
  = (Raise ValueError, world_after []).
Proof.
  apply (foreign_character_fatal default_max_str_digits
           (answering 200 (PyStr "0x1a2b3c wei")) "0x1a2b3c wei").
  - apply answering_result_field.
  - reflexivity.
Defined.

(** X4. A [result] string without a minus sign is never decoded to a
    negative number; when the run on such a string ends through
    [sys.exit(1)], the height is zero and the line printed is
    [block_number: 0]. *)
Theorem unsigned_height_never_negative lim net s n :
  result_field net (PyStr s) ->
  occurs "-" s = false ->
  py_int (PyStr s) 16 = Return n ->
  (0 <= n)%Z /\
  (fst (run lim net) = Raise (SystemExit 1) ->
   n = 0%Z /\ stdout (snd (run lim net)) = ["block_number: 0"%string]).
Proof.
  intros Hf Hm Hn. pose proof (py_int_no_minus s n Hn Hm) as Hpos.
  split; [exact Hpos|].
  destruct Hf as (r & d & Hr & Hb & Hd).
  assert (Hbn : block_number_of r = Return n)
    by now rewrite (block_number_of_field r d _ Hb Hd).
  destruct (int_to_str_cases lim n) as [Hs|Hs].
  - rewrite (run_decoded lim net r n Hr Hbn Hs). cbn [fst snd stdout world_after].
    destruct (Z.gtb_spec n 0); [discriminate|]. intros _.
    assert (n = 0%Z) by lia. subst n. split; reflexivity.
  - rewrite (run_unprintable lim net r n Hr Hbn Hs). discriminate.
Qed.

Lemma unsigned_height_never_negative_witness :
  (0 <= 0)%Z /\
  (fst (run default_max_str_digits (answering 200 (PyStr "0x0"))) = Raise (SystemExit 1) ->
   0%Z = 0%Z /\
   stdout (snd (run default_max_str_digits (answering 200 (PyStr "0x0"))))
   = ["block_number: 0"%string]).
Proof.
  apply (unsigned_height_never_negative default_max_str_digits
           (answering 200 (PyStr "0x0")) "0x0" 0).
  - apply answering_result_field.
  - reflexivity.
  - reflexivity.
Defined.

(** X5. Single underscores between hexadecimal digits are accepted and
    ignored: [0x] followed by groups of digits separated by underscores is
    decoded to the value of the digits alone, and the run is the run on
    the same digits written without underscores. *)
Theorem digit_groups_accepted lim net net' groups :
  groups <> [] ->
  forallb hex_numeral groups = true ->
  result_field net (PyStr ("0x" +:+ join_groups groups)) ->
  result_field net' (PyStr ("0x" +:+ concat_groups groups)) ->
  py_int (PyStr ("0x" +:+ join_groups groups)) 16
  = Return (hex_value (concat_groups groups)) /\
  run lim net = run lim net'.
Proof.
  intros Hne H Hf Hf'.
  pose proof (py_int_groups groups Hne H) as Hint.
  pose proof (py_int_canonical _ (concat_groups_numeral groups Hne H)) as Hint'.
  split; [exact Hint|].
  exact (run_same_integer lim net net' _ _ _ Hf Hf' Hint Hint').
Qed.

Lemma digit_groups_accepted_witness :
  py_int (PyStr "0x1a_2b3c") 16 = Return 1715004%Z /\
  run default_max_str_digits (answering 200 (PyStr "0x1a_2b3c"))
  = run default_max_str_digits (answering 200 (PyStr "0x1a2b3c")).
Proof.
  apply (digit_groups_accepted default_max_str_digits
           (answering 200 (PyStr "0x1a_2b3c")) (answering 200 (PyStr "0x1a2b3c"))
           ["1a"; "2b3c"]%string).
  - discriminate.
  - reflexivity.
  - apply (answering_result_field 200 (PyStr "0x1a_2b3c")).
  - apply (answering_result_field 200 (PyStr "0x1a2b3c")).
Defined.

(** X6. A leading plus sign and the upper-case prefix [0X] are accepted:
    a numeral written with them, with or without whitespace around it, ends
    the run as the same digits written after [0x] do. *)
Theorem plus_sign_and_upper_prefix_accepted lim net net' ws1 px ds ws2 :
  all_chars is_whitespace ws1 = true ->
  all_chars is_whitespace ws2 = true ->
  px ∈ [""; "0x"; "0X"]%string ->
  hex_numeral ds = true ->
  result_field net (PyStr (ws1 +:+ "+" +:+ px +:+ ds +:+ ws2)) ->
  result_field net' (PyStr ("0x" +:+ ds)) ->
  py_int (PyStr (ws1 +:+ "+" +:+ px +:+ ds +:+ ws2)) 16 = Return (hex_value ds) /\
  run lim net = run lim net'.
Proof.
  intros H1 H2 Hpx Hds Hf Hf'.
  assert (Hsg : "+"%string ∈ [""; "+"; "-"]%string) by repeat constructor.
  pose proof (py_int_hex ws1 "+" px ds ws2 H1 H2 Hsg Hpx Hds) as Hint.
  change (sign_factor "+") with 1%Z in Hint. rewrite Z.mul_1_l in Hint.
  split; [exact Hint|].
  exact (run_same_integer lim net net' _ _ _ Hf Hf' Hint (py_int_canonical ds Hds)).
Qed.

Lemma plus_sign_and_upper_prefix_accepted_witness :
  py_int (PyStr "+0X1F") 16 = Return 31%Z /\
  run default_max_str_digits (answering 200 (PyStr "+0X1F"))
  = run default_max_str_digits (answering 200 (PyStr "0x1F")).
Proof.
  apply (plus_sign_and_upper_prefix_accepted default_max_str_digits
           (answering 200 (PyStr "+0X1F")) (answering 200 (PyStr "0x1F"))
           "" "0X" "1F" "").
  - reflexivity.
  - reflexivity.
  - repeat constructor.
  - reflexivity.
  - apply (answering_result_field 200 (PyStr "+0X1F")).
  - apply (answering_result_field 200 (PyStr "0x1F")).
Defined.

(** X7. The case of the digits does not matter: a numeral with its digits
    in upper case ends the run as the same numeral in any other case
    does. *)
Theorem digit_case_insensitive lim net net' ds :
  hex_numeral ds = true ->
  result_field net (PyStr ("0x" +:+ map_chars upper_hex ds)) ->
  result_field net' (PyStr ("0x" +:+ ds)) ->
  py_int (PyStr ("0x" +:+ map_chars upper_hex ds)) 16 = Return (hex_value ds) /\
  run lim net = run lim net'.
Proof.
  intros Hds Hf Hf'.
  pose proof Hds as Hn. unfold hex_numeral in Hn. apply andb_prop in Hn as [Hne Hhex].
  destruct (upper_hex_numeral ds Hhex) as (Ha & Hl & Hv).
  assert (Hup : hex_numeral (map_chars upper_hex ds) = true).
  { unfold hex_numeral. rewrite Ha, andb_true_r.
    destruct ds; [discriminate Hne | reflexivity]. }
  pose proof (py_int_canonical _ Hup) as Hint. rewrite Hv in Hint.
  split; [exact Hint|].
  exact (run_same_integer lim net net' _ _ _ Hf Hf' Hint (py_int_canonical ds Hds)).
Qed.

Lemma digit_case_insensitive_witness :
  py_int (PyStr "0x1A2B3C") 16 = Return 1715004%Z /\
  run default_max_str_digits (answering 200 (PyStr "0x1A2B3C"))
  = run default_max_str_digits (answering 200 (PyStr "0x1a2b3c")).
Proof.
  apply (digit_case_insensitive default_max_str_digits
           (answering 200 (PyStr "0x1A2B3C")) (answering 200 (PyStr "0x1a2b3c"))
           "1a2b3c").
  - reflexivity.
  - apply (answering_result_field 200 (PyStr "0x1A2B3C")).
  - apply (answering_result_field 200 (PyStr "0x1a2b3c")).
Defined.

(** X8. The line printed determines the height: two runs that decode a
    height and write the same output, something having been written,
    decoded the same height. *)
Theorem printed_line_determines_height lim net net' r r' n m :
  net rpc_request = Reply r ->
  net' rpc_request = Reply r' ->
  block_number_of r = Return n ->
  block_number_of r' = Return m ->
  stdout (snd (run lim net)) <> [] ->
  stdout (snd (run lim net)) = stdout (snd (run lim net')) ->
  n = m.
Proof.
  intros Hr Hr' Hn Hm.
  destruct (int_to_str_cases lim n) as [Hs|Hs].
  - rewrite (run_decoded lim net r n Hr Hn Hs). cbn [snd stdout world_after].
    intros _.
    destruct (int_to_str_cases lim m) as [Hs'|Hs'].
    + rewrite (run_decoded lim net' r' m Hr' Hm Hs'). cbn [snd stdout world_after].
      intros H.
      assert (H' : ("block_number: " +:+ py_str n)%string
                   = ("block_number: " +:+ py_str m)%string) by congruence.
      now apply py_str_inj, (append_inj_r "block_number: ").
    + rewrite (run_unprintable lim net' r' m Hr' Hm Hs'). discriminate.
  - rewrite (run_unprintable lim net r n Hr Hn Hs). cbn [snd stdout world_after].
    intros H. now destruct H.
Qed.

Lemma printed_line_determines_height_witness : 26%Z = 26%Z.
Proof.
  apply (printed_line_determines_height default_max_str_digits
           (answering 200 (PyStr "0x1a")) (answering 200 (PyStr " 1A "))
           {| status_code := 200; body_json := Some (PyDict {[ "result" := PyStr "0x1a" ]}) |}
           {| status_code := 200; body_json := Some (PyDict {[ "result" := PyStr " 1A " ]}) |}
           26 26);
    first [reflexivity | discriminate].
Defined.

(** X9. Zero in any spelling, with a minus sign too, is printed as
    [block_number: 0] and ends the run through [sys.exit(1)]. *)
Theorem zero_in_any_spelling lim net ws1 sg px ds ws2 :
  all_chars is_whitespace ws1 = true ->
  all_chars is_whitespace ws2 = true ->
  sg ∈ [""; "+"; "-"]%string ->
  px ∈ [""; "0x"; "0X"]%string ->
  hex_numeral ds = true ->
  hex_value ds = 0%Z ->
  result_field net (PyStr (ws1 +:+ sg +:+ px +:+ ds +:+ ws2)) ->
  run lim net = (Raise (SystemExit 1), world_after ["block_number: 0"%string]).
Proof.
  intros H1 H2 Hsg Hpx Hds Hz Hf.
  pose proof (py_int_hex ws1 sg px ds ws2 H1 H2 Hsg Hpx Hds) as Hint.
  rewrite Hz, Z.mul_0_r in Hint.
  now rewrite (run_result_field lim net _ _ Hf Hint (within_limit_zero lim)).
Qed.

Lemma zero_in_any_spelling_witness :
  run default_max_str_digits (answering 200 (PyStr "-0x000"))
  = (Raise (SystemExit 1), world_after ["block_number: 0"%string]).
Proof.
  apply (zero_in_any_spelling default_max_str_digits
           (answering 200 (PyStr "-0x000")) "" "-" "0x" "000" "").
  - reflexivity.
  - reflexivity.
  - repeat constructor.
  - repeat constructor.
  - reflexivity.
  - reflexivity.
  - apply (answering_result_field 200 (PyStr "-0x000")).
Defined.

(** X10. The uncaught exception names the cause: the exception of
    [requests.post] when the call fails, [JSONDecodeError] when the body is
    not JSON, [TypeError] when the JSON value is not an object,
    [KeyError] when the object has no [result], [TypeError] when [result]
    is not a string, [ValueError] when it is a string that does not parse.
    Nothing is printed in any of these cases, and the status is 1. *)
Theorem uncaught_exception_names_cause lim net :
  (forall f, net rpc_request = Failure f ->
     run lim net = (Raise (RequestException f), world_after [])) /\
  (forall r, net rpc_request = Reply r -> body_json r = None ->
     run lim net = (Raise JSONDecodeError, world_after [])) /\
  (forall r j, net rpc_request = Reply r -> body_json r = Some j ->
     (forall d, j <> PyDict d) ->
     run lim net = (Raise TypeError, world_after [])) /\
  (forall r d, net rpc_request = Reply r -> body_json r = Some (PyDict d) ->
     d !! "result" = None ->
     run lim net = (Raise (KeyError "result"), world_after [])) /\
  (forall v, result_field net v -> (forall s, v <> PyStr s) ->
     run lim net = (Raise TypeError, world_after [])) /\
  (forall s, result_field net (PyStr s) -> PyLong_FromUnicodeObject s 16 = None ->
     run lim net = (Raise ValueError, world_after [])) /\
  (uncaught_failure (fst (run lim net)) ->
     exit_status (fst (run lim net)) = 1%Z /\ stdout (snd (run lim net)) = []).
Proof.
  repeat split.
  - intros f Hf. now apply run_failure.
  - intros r Hr Hb. apply (run_raises lim net r _ Hr).
    unfold block_number_of, Response_json. now rewrite Hb.
  - intros r j Hr Hb Hj. apply (run_raises lim net r _ Hr).
    unfold block_number_of, Response_json. rewrite Hb. cbn [result_bind].
    destruct j; try reflexivity. now destruct (Hj d).
  - intros r d Hr Hb Hd. apply (run_raises lim net r _ Hr).
    unfold block_number_of, Response_json. rewrite Hb. cbn [result_bind getitem].
    now rewrite Hd.
  - intros v Hf Hv. apply (run_field_raises lim net v _ Hf).
    unfold py_int. change ((16 <? 2)%N || (36 <? 16)%N) with false. cbv iota.
    destruct v; try reflexivity. now destruct (Hv s).
  - intros s Hf Hs. apply (run_field_raises lim net _ _ Hf).
    unfold py_int. change ((16 <? 2)%N || (36 <? 16)%N) with false. cbv iota.
    now rewrite Hs.
  - now apply uncaught_failure_status.
  - destruct (run_cases lim net)
      as [(f & _ & E) | [(r & e & _ & _ & E) | [(r & n & _ & _ & _ & E)
                                                | (r & n & _ & _ & _ & E)]]];
      rewrite E in H |- *; [reflexivity | reflexivity | reflexivity | destruct H].
Qed.

Lemma uncaught_exception_names_cause_witness :
  run default_max_str_digits (answering 200 (PyInt 1715004))
  = (Raise TypeError, world_after []).
Proof.
  apply (proj1 (proj2 (proj2 (proj2 (proj2
           (uncaught_exception_names_cause default_max_str_digits
              (answering 200 (PyInt 1715004)))))))
           (PyInt 1715004)).
  - apply answering_result_field.
  - discriminate.
Defined.
